(** * A shallow embedding of the June API client

    Two Python modules are embedded:
    - [Legacy]  : [src/june.py]       (single-id variant, flat device URL);
    - [Current] : [src/june/june.py]  (contract-scoped devices, measurements,
                                       date coercion, start/end lookup).

    Both are thin wrappers around the [requests] HTTP library.  The client is
    modelled with explicit state passing: a state holds the client object
    (its [access_token] attribute) and the list of HTTP requests issued so
    far.  Exceptions are values of type [exn]; a computation returns either an
    exception or a value, together with the state it leaves behind. *)

From Stdlib Require Import ZArith List String Ascii Bool Lia DecimalString.
Import ListNotations.

Local Open Scope string_scope.
Local Open Scope Z_scope.
Set Warnings "-register-all".

(* ================================================================== *)
(** * Python values *)
(* ================================================================== *)

(** The values that [r.json()] can produce, and that the caller can store in
    [access_token].  JSON objects are dictionaries with string keys; they are
    kept as association lists in insertion order, looked up by first match.
    Numbers are integers (the API's ids); floating point numbers are left
    out.  Strings are sequences of characters with code point below 256. *)
Inductive pyval : Type :=
| PyNone
| PyBool (b : bool)
| PyInt (n : Z)
| PyStr (s : string)
| PyList (l : list pyval)
| PyDict (d : list (string * pyval)).

(** Python truthiness ([bool(v)]), as tested by [not self.access_token]. *)
Definition truthy (v : pyval) : bool :=
  match v with
  | PyNone => false
  | PyBool b => b
  | PyInt n => negb (n =? 0)
  | PyStr s => negb (s =? "")%string
  | PyList l => match l with [] => false | _ :: _ => true end
  | PyDict d => match d with [] => false | _ :: _ => true end
  end.

(** ** [str] and [repr], as used by [str.format] with a [{}] field *)

Definition str_of_Z (n : Z) : string := NilZero.string_of_int (Z.to_int n).

Definition hex_digit (n : nat) : ascii :=
  if (n <? 10)%nat then ascii_of_nat (48 + n) else ascii_of_nat (87 + n).

Definition dquote : ascii := ascii_of_nat 34.
Definition squote : ascii := ascii_of_nat 39.
Definition backslash : ascii := ascii_of_nat 92.

Fixpoint contains (c : ascii) (s : string) : bool :=
  match s with
  | EmptyString => false
  | String c' s' => Ascii.eqb c c' || contains c s'
  end.

(** Characters that [repr] keeps as they are (code points below 256). *)
Definition printable (c : ascii) : bool :=
  let n := nat_of_ascii c in
  ((32 <=? n) && (n <? 127) || (161 <=? n) && negb (n =? 173))%nat.

Definition escape_char (quote c : ascii) : string :=
  if Ascii.eqb c quote || Ascii.eqb c backslash then String backslash (String c "")
  else if Ascii.eqb c (ascii_of_nat 9) then String backslash "t"
  else if Ascii.eqb c (ascii_of_nat 10) then String backslash "n"
  else if Ascii.eqb c (ascii_of_nat 13) then String backslash "r"
  else if printable c then String c ""
  else let n := nat_of_ascii c in
       String backslash
         (String "x" (String (hex_digit (n / 16)) (String (hex_digit (n mod 16)) ""))).

Fixpoint escape (quote : ascii) (s : string) : string :=
  match s with
  | EmptyString => ""
  | String c s' => escape_char quote c ++ escape quote s'
  end.

Definition repr_str (s : string) : string :=
  let quote := if contains squote s && negb (contains dquote s) then dquote else squote in
  String quote (escape quote s ++ String quote "").

Fixpoint repr (v : pyval) : string :=
  match v with
  | PyNone => "None"
  | PyBool true => "True"
  | PyBool false => "False"
  | PyInt n => str_of_Z n
  | PyStr s => repr_str s
  | PyList l => "[" ++ String.concat ", " (map repr l) ++ "]"
  | PyDict d =>
      "{" ++ String.concat ", "
               (map (fun kv => repr_str (fst kv) ++ ": " ++ repr (snd kv)) d) ++ "}"
  end.

Definition str (v : pyval) : string :=
  match v with
  | PyStr s => s
  | _ => repr v
  end.

(* ================================================================== *)
(** * HTTP, exceptions and the client state *)
(* ================================================================== *)

Inductive http_method := GET | POST.

(** What [requests.get(url, params=..., headers=...)] and
    [requests.post(url, data)] put on the wire. *)
Record request := mkRequest {
  req_method : http_method;
  req_url : string;
  req_params : list (string * pyval);
  req_headers : list (string * string);
  req_data : list (string * string)
}.

(** A [requests.Response]: its [status_code], and what [r.json()] gives
    ([None] when the body is not valid JSON). *)
Record response := mkResponse {
  status_code : Z;
  json_body : option pyval
}.

(** The exceptions the two modules can raise or let through.  Both modules
    declare a class [NotAuthenticatedError]; they are identified here. *)
Inductive exn : Type :=
| NotAuthenticatedError (msg : string)
| MultipleIdError (msg : string)
| HTTPError (r : response)          (* requests.HTTPError, holds the response *)
| RequestException                  (* the request itself failed: no response *)
| JSONDecodeError                   (* r.json() on a body that is not JSON   *)
| KeyError (key : string)
| TypeError
| ValueError
| OverflowError.

Definition result (A : Type) : Type := (exn + A)%type.

(** The client object: one attribute. *)
Record June := mkJune { access_token : pyval }.

(** [__init__(self, access_token=None)] *)
Definition init (tok : option pyval) : June :=
  {| access_token := match tok with Some t => t | None => PyNone end |}.

(** The client together with the requests it has issued, oldest first. *)
Record state := mkState {
  self : June;
  sent : list request
}.

(** Computations: state and exception passing.  A raised exception keeps the
    state reached so far, as Python does. *)
Definition M (A : Type) : Type := state -> result A * state.

Definition ret {A} (a : A) : M A := fun st => (inr a, st).
Definition raise {A} (e : exn) : M A := fun st => (inl e, st).
Definition bind {A B} (m : M A) (k : A -> M B) : M B :=
  fun st =>
    match m st with
    | (inl e, st') => (inl e, st')
    | (inr a, st') => k a st'
    end.
Definition lift {A} (r : result A) : M A := fun st => (r, st).

Declare Scope py_scope.
Delimit Scope py_scope with py.
Notation "x <- m ;; k" := (bind m (fun x => k))
  (at level 100, m at next level, right associativity) : py_scope.
Notation "m ;;; k" := (bind m (fun _ => k))
  (at level 100, right associativity) : py_scope.
Local Open Scope py_scope.

Definition get_access_token : M pyval := fun st => (inr (access_token (self st)), st).
Definition set_access_token (v : pyval) : M unit :=
  fun st => (inr tt, {| self := {| access_token := v |}; sent := sent st |}).

(** ** Subscripting and iteration *)

Fixpoint lookup (k : string) (d : list (string * pyval)) : option pyval :=
  match d with
  | [] => None
  | (k', v) :: d' => if (k =? k')%string then Some v else lookup k d'
  end.

(** [obj[key]] with a string key: a dictionary is looked up ([KeyError] when
    the key is missing); lists and strings want integer indices, and the
    other values are not subscriptable ([TypeError]). *)
Definition getitem (obj : pyval) (key : string) : result pyval :=
  match obj with
  | PyDict d => match lookup key d with
                | Some v => inr v
                | None => inl (KeyError key)
                end
  | _ => inl TypeError
  end.

Fixpoint chars (s : string) : list pyval :=
  match s with
  | EmptyString => []
  | String c s' => PyStr (String c "") :: chars s'
  end.

(** [for x in obj]: the elements of a list, the keys of a dictionary, the
    characters of a string; the other values are not iterable. *)
Definition iter (obj : pyval) : result (list pyval) :=
  match obj with
  | PyList l => inr l
  | PyDict d => inr (map (fun kv => PyStr (fst kv)) d)
  | PyStr s => inr (chars s)
  | _ => inl TypeError
  end.

(** [[f(x) for x in l]]: stops at the first exception. *)
Fixpoint comprehension {A B} (f : A -> result B) (l : list A) : result (list B) :=
  match l with
  | [] => inr []
  | x :: l' =>
      match f x with
      | inl e => inl e
      | inr y => match comprehension f l' with
                 | inl e => inl e
                 | inr ys => inr (y :: ys)
                 end
      end
  end.

(** [v == n] for an integer [n]: booleans are integers in Python. *)
Definition eq_int (v : pyval) (n : Z) : bool :=
  match v with
  | PyInt m => m =? n
  | PyBool b => (if b then 1 else 0) =? n
  | _ => false
  end.

(** ** The [requests] library *)

(** The network: given the requests issued before and the current one, either
    the call itself fails or a response comes back (the last one, when
    [requests] has followed redirections). *)
Definition transport := list request -> request -> result response.

Definition send (net : transport) (rq : request) : M response :=
  fun st => (net (sent st) rq, {| self := self st; sent := sent st ++ [rq] |}).

(** The statuses that [requests] reports as errors: client errors (4xx) and
    server errors (5xx). *)
Definition is_error (r : response) : bool :=
  (400 <=? status_code r) && (status_code r <? 600).

(** [Response.raise_for_status()]: raises [HTTPError] for an error status,
    and returns otherwise. *)
Definition raise_for_status (r : response) : M unit :=
  if is_error r then raise (HTTPError r) else ret tt.

(** [Response.json()] *)
Definition json (r : response) : M pyval :=
  match json_body r with
  | Some v => ret v
  | None => raise JSONDecodeError
  end.

Definition URL : string := "https://api-portal.june.energy/".

(** ["Bearer {}".format(tok)] in the [Authorization] header *)
Definition bearer (tok : pyval) : list (string * string) :=
  [("Authorization", "Bearer " ++ str tok)].

(* ================================================================== *)
(** * The legacy client, [src/june.py] *)
(* ================================================================== *)

Module Legacy.
Section Client.
Variable net : transport.

(** The [authenticated] decorator. *)
Definition authenticated {A} (func : M A) : M A :=
  tok <- get_access_token ;;
  if negb (truthy tok)
  then raise (NotAuthenticatedError "Please authenticate first")
  else func.

Definition authenticate (username password : string) : M unit :=
  let auth_url := URL ++ "oauth/token" in
  let data := [("grant_type", "password");
               ("username", username);
               ("password", password)] in
  r <- send net (mkRequest POST auth_url [] [] data) ;;
  raise_for_status r ;;;
  j <- json r ;;
  tok <- lift (getitem j "access_token") ;;
  set_access_token tok.

Definition get_contracts : M pyval :=
  authenticated (
    let contract_url := URL ++ "contracts" in
    tok <- get_access_token ;;
    r <- send net (mkRequest GET contract_url [] (bearer tok) []) ;;
    raise_for_status r ;;;
    json r).

Definition get_ids : M (list pyval) :=
  contracts <- get_contracts ;;
  data <- lift (getitem contracts "data") ;;
  items <- lift (iter data) ;;
  lift (comprehension (fun contract => getitem contract "id") items).

Definition get_id : M pyval :=
  ids <- get_ids ;;
  match ids with
  | [x] => ret x
  | _ => raise (MultipleIdError "0 or more than 1 ids, cannot return single Id")
  end.

Definition get_devices (id : Z) : M pyval :=
  authenticated (
    let devices_url := URL ++ "devices/" ++ str (PyInt id) in
    tok <- get_access_token ;;
    r <- send net (mkRequest GET devices_url [] (bearer tok) []) ;;
    raise_for_status r ;;;
    json r).
End Client.
End Legacy.

(* ================================================================== *)
(** * Python's [datetime] module, as far as [_to_date] uses it *)
(* ================================================================== *)

Module Datetime.

(** A [datetime.date]. *)
Record date := mkDate { year : Z; month : Z; day : Z }.

(** A [tzinfo] attached to a datetime: either the object [pytz.UTC]
    itself, or another time zone, given by the [utcoffset] it reports for
    the datetime it is attached to, in microseconds (a [timedelta] is
    identified with its length in microseconds). *)
Inductive timezone :=
| pytz_UTC
| tz_offset (utcoffset : Z).

(** A [datetime.datetime]; naive when [tzinfo] is [None]. *)
Record datetime := mkDatetime {
  on : date;
  hour : Z;
  minute : Z;
  second : Z;
  microsecond : Z;
  tzinfo : option timezone
}.

Definition MINYEAR : Z := 1.
Definition MAXYEAR : Z := 9999.
Definition _MAXORDINAL : Z := 3652059.

Definition _is_leap (y : Z) : bool :=
  (y mod 4 =? 0) && (negb (y mod 100 =? 0) || (y mod 400 =? 0)).

Definition _days_before_year (year : Z) : Z :=
  let y := year - 1 in
  y * 365 + y / 4 - y / 100 + y / 400.

Definition _DAYS_IN_MONTH (m : Z) : Z :=
  match m with
  | 1 => 31 | 2 => 28 | 3 => 31 | 4 => 30 | 5 => 31 | 6 => 30
  | 7 => 31 | 8 => 31 | 9 => 30 | 10 => 31 | 11 => 30 | 12 => 31
  | _ => -1
  end.

Definition _DAYS_BEFORE_MONTH (m : Z) : Z :=
  match m with
  | 1 => 0 | 2 => 31 | 3 => 59 | 4 => 90 | 5 => 120 | 6 => 151
  | 7 => 181 | 8 => 212 | 9 => 243 | 10 => 273 | 11 => 304 | 12 => 334
  | _ => -1
  end.

Definition _days_in_month (year month : Z) : Z :=
  if (month =? 2) && _is_leap year then 29 else _DAYS_IN_MONTH month.

Definition _days_before_month (year month : Z) : Z :=
  _DAYS_BEFORE_MONTH month + (if (2 <? month) && _is_leap year then 1 else 0).

Definition _ymd2ord (year month day : Z) : Z :=
  _days_before_year year + _days_before_month year month + day.

Definition _DI400Y : Z := 146097.
Definition _DI100Y : Z := 36524.
Definition _DI4Y : Z := 1461.

Definition _ord2ymd (n0 : Z) : date :=
  let n := n0 - 1 in
  let n400 := n / _DI400Y in
  let n := n mod _DI400Y in
  let year := n400 * 400 + 1 in
  let n100 := n / _DI100Y in
  let n := n mod _DI100Y in
  let n4 := n / _DI4Y in
  let n := n mod _DI4Y in
  let n1 := n / 365 in
  let n := n mod 365 in
  let year := year + n100 * 100 + n4 * 4 + n1 in
  if (n1 =? 4) || (n100 =? 4) then mkDate (year - 1) 12 31
  else
    let leapyear := (n1 =? 3) && (negb (n4 =? 24) || (n100 =? 3)) in
    let month := Z.shiftr (n + 50) 5 in
    let preceding :=
      _DAYS_BEFORE_MONTH month + (if (2 <? month) && leapyear then 1 else 0) in
    if n <? preceding
    then
      let month := month - 1 in
      let preceding :=
        preceding - (_DAYS_IN_MONTH month + (if (month =? 2) && leapyear then 1 else 0)) in
      mkDate year month (n - preceding + 1)
    else mkDate year month (n - preceding + 1).

(** What the constructors [date(y, m, d)] and [datetime(...)] accept. *)
Definition valid_date (d : date) : bool :=
  (MINYEAR <=? year d) && (year d <=? MAXYEAR) &&
  (1 <=? month d) && (month d <=? 12) &&
  (1 <=? day d) && (day d <=? _days_in_month (year d) (month d)).

Definition valid_time (h mi s us : Z) : bool :=
  (0 <=? h) && (h <? 24) && (0 <=? mi) && (mi <? 60) &&
  (0 <=? s) && (s <? 60) && (0 <=? us) && (us <? 1000000).

(** [utcoffset()] must be strictly between minus and plus one day. *)
Definition valid_tz (tz : option timezone) : bool :=
  match tz with
  | Some (tz_offset off) => (-86400000000 <? off) && (off <? 86400000000)
  | _ => true
  end.

Definition valid_datetime (d : datetime) : bool :=
  valid_date (on d) && valid_time (hour d) (minute d) (second d) (microsecond d)
  && valid_tz (tzinfo d).

Definition toordinal (d : date) : Z := _ymd2ord (year d) (month d) (day d).

(** Microseconds from midnight before day 1 to the wall clock of [d]. *)
Definition wall_clock (d : datetime) : Z :=
  (toordinal (on d) * 86400 + hour d * 3600 + minute d * 60 + second d) * 1000000
  + microsecond d.

(** [datetime.__add__] with a [timedelta] of [delta] microseconds. *)
Definition add (d : datetime) (delta : Z) : result datetime :=
  let total := wall_clock d + delta in
  let days := total / 86400000000 in
  let rest := total mod 86400000000 in
  let seconds := rest / 1000000 in
  let microseconds := rest mod 1000000 in
  let hour := seconds / 3600 in
  let rem := seconds mod 3600 in
  let minute := rem / 60 in
  let second := rem mod 60 in
  if (0 <? days) && (days <=? _MAXORDINAL)
  then inr (mkDatetime (_ord2ymd days) hour minute second microseconds (tzinfo d))
  else inl OverflowError.

Definition replace_tzinfo (d : datetime) (tz : option timezone) : datetime :=
  mkDatetime (on d) (hour d) (minute d) (second d) (microsecond d) tz.

(** [d.astimezone(pytz.UTC)] for a [d] whose [tzinfo] is [tz]: the same
    object when [tz] is [pytz.UTC] already, and otherwise
    [(d - offset).replace(tzinfo=pytz.UTC)], which [pytz.UTC.fromutc]
    leaves as it is. *)
Definition astimezone_UTC (d : datetime) (tz : timezone) : result datetime :=
  match tz with
  | pytz_UTC => inr d
  | tz_offset myoffset =>
      match add d (- myoffset) with
      | inl e => inl e
      | inr utc => inr (replace_tzinfo utc (Some pytz_UTC))
      end
  end.

(** ** [strftime('%Y-%m-%d')] *)

Fixpoint zeros (n : nat) : string :=
  match n with O => "" | S n' => String "0" (zeros n') end.

Definition zfill (width : nat) (s : string) : string :=
  zeros (width - String.length s) ++ s.

(** Months and days are written with two digits, zero filled.  The year is
    written by the C library of the platform: with its four digits from the
    year 1000 on; and below that zero filled to four digits where [padded]
    holds, as the documentation of [strftime] has it, and with the digits it
    has where it does not, as glibc does. *)
Definition strftime_Ymd (padded : bool) (d : date) : string :=
  (if padded then zfill 4 (str_of_Z (year d)) else str_of_Z (year d))
  ++ "-" ++ zfill 2 (str_of_Z (month d))
  ++ "-" ++ zfill 2 (str_of_Z (day d)).

(** ** [datetime.strptime(s, '%Y-%m-%d')] *)

(** The format is compiled to the regular expression
    [(?P<Y>\d\d\d\d)-(?P<m>1[0-2]|0[1-9]|[1-9])-(?P<d>3[0-1]|[1-2]\d|0[1-9]|[1-9]| [1-9])]
    and matched at the start of the string.  A matcher lists, in the order
    in which a backtracking engine tries them, the ways to match a prefix:
    the text matched and the text left. *)
Definition matcher := string -> list (string * string).

Definition cls (p : ascii -> bool) : matcher :=
  fun s => match s with
           | String c s' => if p c then [(String c "", s')] else []
           | EmptyString => []
           end.

Definition seq (m1 m2 : matcher) : matcher :=
  fun s => flat_map (fun '(t1, s1) =>
                       map (fun '(t2, s2) => (t1 ++ t2, s2)) (m2 s1)) (m1 s).

Definition alt (m1 m2 : matcher) : matcher := fun s => (m1 s ++ m2 s)%list.

Definition between (lo hi : nat) (c : ascii) : bool :=
  ((lo <=? nat_of_ascii c) && (nat_of_ascii c <=? hi))%nat.

(** [\d] over the characters of this model, code points below 256, where
    the decimal digits are [0] to [9]; the digits of other scripts, which
    [\d] and [int] accept as well, lie beyond the strings modelled here. *)
Definition digit : matcher := cls (between 48 57).
Definition range (lo hi : ascii) : matcher :=
  cls (between (nat_of_ascii lo) (nat_of_ascii hi)).
Definition lit (c : ascii) : matcher := cls (Ascii.eqb c).

Definition re_Y : matcher := seq digit (seq digit (seq digit digit)).
Definition re_m : matcher :=
  alt (seq (lit "1") (range "0" "2"))
 (alt (seq (lit "0") (range "1" "9"))
      (range "1" "9")).
Definition re_d : matcher :=
  alt (seq (lit "3") (range "0" "1"))
 (alt (seq (range "1" "2") digit)
 (alt (seq (lit "0") (range "1" "9"))
 (alt (range "1" "9")
      (seq (lit " ") (range "1" "9"))))).

(** The first match of the whole expression: the three groups and the
    text after the match. *)
Definition re_match (s : string) : option (string * string * string * string) :=
  hd_error
    (flat_map (fun '(Y, s1) =>
     flat_map (fun '(_, s2) =>
     flat_map (fun '(m, s3) =>
     flat_map (fun '(_, s4) =>
     map (fun '(d, s5) => (Y, m, d, s5)) (re_d s4))
       (lit "-" s3)) (re_m s2)) (lit "-" s1)) (re_Y s)).

(** [int(t)] on a group of the match: decimal digits, possibly after a
    blank. *)
Fixpoint int_acc (acc : Z) (t : string) : Z :=
  match t with
  | EmptyString => acc
  | String c t' =>
      if between 48 57 c
      then int_acc (acc * 10 + Z.of_nat (nat_of_ascii c - 48)) t'
      else int_acc acc t'
  end.
Definition int (t : string) : Z := int_acc 0 t.

(** Raises [ValueError] when the string does not match the format, when
    text is left after the match, and when year, month and day are not a
    date. *)
Definition strptime_Ymd (s : string) : result datetime :=
  match re_match s with
  | None => inl ValueError
  | Some (Y, m, d, rest) =>
      if negb (rest =? "")%string then inl ValueError
      else
        let date := mkDate (int Y) (int m) (int d) in
        if valid_date date then inr (mkDatetime date 0 0 0 0 None)
        else inl ValueError
  end.

End Datetime.

(* ================================================================== *)
(** * The current client, [src/june/june.py] *)
(* ================================================================== *)

Module Current.
Import Datetime.

(** The argument of [_to_date]: [str | dt.date | dt.datetime]. *)
Inductive date_obj :=
| a_str (s : string)
| a_date (d : date)
| a_datetime (d : datetime).

(** The static method [June._to_date], on a platform whose [strftime] is
    [strftime_Ymd padded].  A [dt.date] has no attribute [tzinfo]; a
    [dt.datetime] has one, which may be [None]. *)
Definition _to_date (padded : bool) (date_obj : date_obj) : result string :=
  match date_obj with
  | a_str s =>
      match strptime_Ymd s with
      | inl e => inl e
      | inr _ => inr s
      end
  | a_date d => inr (strftime_Ymd padded d)
  | a_datetime d =>
      match tzinfo d with
      | Some tz =>
          match astimezone_UTC d tz with
          | inl e => inl e
          | inr utc => inr (strftime_Ymd padded (on utc))
          end
      | None => inr (strftime_Ymd padded (on d))
      end
  end.

Section Client.
Variable net : transport.

(** Whether the platform writes years below 1000 with four digits. *)
Variable padded : bool.

(** [dateutil.parser.parse], applied to a value of the response. *)
Variable parse : pyval -> result datetime.

(** The [authenticated] decorator. *)
Definition authenticated {A} (func : M A) : M A :=
  tok <- get_access_token ;;
  if negb (truthy tok)
  then raise (NotAuthenticatedError "Please authenticate first")
  else func.

Definition authenticate (username password : string) : M unit :=
  let auth_url := URL ++ "oauth/token" in
  let data := [("grant_type", "password");
               ("username", username);
               ("password", password)] in
  r <- send net (mkRequest POST auth_url [] [] data) ;;
  raise_for_status r ;;;
  j <- json r ;;
  tok <- lift (getitem j "access_token") ;;
  set_access_token tok.

Definition get_contracts : M pyval :=
  authenticated (
    let contract_url := URL ++ "contracts" in
    tok <- get_access_token ;;
    r <- send net (mkRequest GET contract_url [] (bearer tok) []) ;;
    raise_for_status r ;;;
    json r).

Definition get_contract_ids : M (list pyval) :=
  contracts <- get_contracts ;;
  data <- lift (getitem contracts "data") ;;
  items <- lift (iter data) ;;
  lift (comprehension (fun contract => getitem contract "id") items).

Definition get_devices (contract_id : Z) : M pyval :=
  authenticated (
    let devices_url := URL ++ "contracts/" ++ str (PyInt contract_id) ++ "/devices" in
    tok <- get_access_token ;;
    r <- send net (mkRequest GET devices_url [] (bearer tok) []) ;;
    raise_for_status r ;;;
    json r).

Definition get_measurements (device_id period : Z) (start end_ : date_obj) : M pyval :=
  authenticated (
    let measurements_url := URL ++ "devices/" ++ str (PyInt device_id) ++ "/measures" in
    s <- lift (_to_date padded start) ;;
    e <- lift (_to_date padded end_) ;;
    let params := [("filter[period]", PyInt period);
                   ("filter[start]", PyStr s);
                   ("filter[end]", PyStr e)] in
    tok <- get_access_token ;;
    r <- send net (mkRequest GET measurements_url params (bearer tok) []) ;;
    raise_for_status r ;;;
    json r).

(** The loop of [get_start_end]: [for device in ...: ... else: ...]. *)
Fixpoint for_device (device_id : Z) (devices : list pyval)
  : M (option datetime * option datetime) :=
  match devices with
  | [] => ret (None, None)
  | device :: rest =>
      id <- lift (getitem device "id") ;;
      if eq_int id device_id
      then
        attributes <- lift (getitem device "attributes") ;;
        created_at <- lift (getitem attributes "created_at") ;;
        start <- lift (parse created_at) ;;
        attributes <- lift (getitem device "attributes") ;;
        last_image_date <- lift (getitem attributes "last_image_date") ;;
        end_ <- lift (parse last_image_date) ;;
        ret (Some start, Some end_)
      else for_device device_id rest
  end.

Definition get_start_end (contract_id device_id : Z)
  : M (option datetime * option datetime) :=
  devices <- get_devices contract_id ;;
  data <- lift (getitem devices "data") ;;
  items <- lift (iter data) ;;
  for_device device_id items.

(** [get_measurements_dataframe] hands the result of [get_measurements] to
    [pandas]; it follows, with the library as a parameter. *)
End Client.
(** What [get_measurements_dataframe] uses of [pandas]: the operations of
    the library on its tables and columns, each of which may raise. *)
Record pandas (frame column : Type) := mkPandas {
  from_records : list pyval -> result frame;            (* pd.DataFrame.from_records(l) *)
  get_column : frame -> string -> result column;        (* df.start *)
  DatetimeIndex : column -> result column;              (* pd.DatetimeIndex(c) *)
  set_column : frame -> string -> column -> result frame;   (* df.start = c *)
  set_index : frame -> string -> result frame           (* df.set_index('start') *)
}.
Arguments from_records {frame column}.
Arguments get_column {frame column}.
Arguments DatetimeIndex {frame column}.
Arguments set_column {frame column}.
Arguments set_index {frame column}.

Section Table.
Variable net : transport.
Variable padded : bool.
Variables frame column : Type.

(** [import pandas as pd], which fails where the library is missing. *)
Variable import_pandas : result (pandas frame column).

Definition get_measurements_dataframe (device_id period : Z) (start end_ : date_obj)
  : M frame :=
  pd <- lift import_pandas ;;
  measurements <- get_measurements net padded device_id period start end_ ;;
  data <- lift (getitem measurements "data") ;;
  points <- lift (iter data) ;;
  datapoints <- lift (comprehension (fun point => getitem point "attributes") points) ;;
  df <- lift (from_records pd datapoints) ;;
  start_column <- lift (get_column pd df "start") ;;
  index <- lift (DatetimeIndex pd start_column) ;;
  df <- lift (set_column pd df "start" index) ;;
  df <- lift (set_index pd df "start") ;;
  ret df.
End Table.
End Current.

(* ================================================================== *)
(** * Vocabulary of the statements *)
(* ================================================================== *)

(** The message of the gate, the same in both modules. *)
Definition unauthenticated {A} : result A :=
  inl (NotAuthenticatedError "Please authenticate first").

(** A computation that leaves the client object as it found it. *)
Definition keeps_self {A} (m : M A) : Prop :=
  forall st, self (snd (m st)) = self st.

(** A device entry with an id different from the one looked for. *)
Definition other_device (device_id : Z) (device : pyval) : Prop :=
  exists id, getitem device "id" = inr id /\ eq_int id device_id = false.

(** The operation sent exactly one request. *)
Definition one_request {A} (op : M A) (st : state) : Prop :=
  exists rq, sent (snd (op st)) = (sent st ++ [rq])%list.

(** The operation raised the [HTTPError] of response [r], after one
    request. *)
Definition raises_status {A} (op : M A) (st : state) (r : response) : Prop :=
  fst (op st) = inl (HTTPError r) /\ one_request op st.

(** The operation returned [v], after one request. *)
Definition returns_body (op : M pyval) (st : state) (v : pyval) : Prop :=
  fst (op st) = inr v /\ one_request op st.

(** The successful statuses, 200 to 299. *)
Definition is_2xx (r : response) : bool :=
  (200 <=? status_code r) && (status_code r <? 300).

Module Calendar.
Import Datetime.

(** The end of [_ord2ymd]: month and day from the day of the year,
    counted from 0. *)
Definition month_day (leapyear : bool) (n : Z) : Z * Z :=
  let month := Z.shiftr (n + 50) 5 in
  let preceding :=
    _DAYS_BEFORE_MONTH month + (if (2 <? month) && leapyear then 1 else 0) in
  if n <? preceding
  then
    let month := month - 1 in
    let preceding :=
      preceding - (_DAYS_IN_MONTH month + (if (month =? 2) && leapyear then 1 else 0)) in
    (month, n - preceding + 1)
  else (month, n - preceding + 1).

Definition month_day_ok (leapyear : bool) (n : Z) : bool :=
  let (m, d) := month_day leapyear n in
  (1 <=? m) && (m <=? 12) && (1 <=? d)
  && (d <=? (if (m =? 2) && leapyear then 29 else _DAYS_IN_MONTH m))
  && (_DAYS_BEFORE_MONTH m + (if (2 <? m) && leapyear then 1 else 0) + d =? n + 1).

Fixpoint pow2 (k : nat) : Z :=
  match k with
  | O => 1
  | S k' => 2 * pow2 k'
  end.

(** [f] holds on the [2 ^ depth] integers from [lo] on. *)
Fixpoint all_from (depth : nat) (f : Z -> bool) (lo : Z) : bool :=
  match depth with
  | O => f lo
  | S k => all_from k f lo && all_from k f (lo + pow2 k)
  end.

(** The offset from UTC that a time zone reports, in microseconds. *)
Definition utcoffset (tz : timezone) : Z :=
  match tz with
  | pytz_UTC => 0
  | tz_offset off => off
  end.

(** The ordinal of the day on which the instant of [d] falls in UTC. *)
Definition utc_day (d : datetime) (tz : timezone) : Z :=
  (wall_clock d - utcoffset tz) / 86400000000.

(** [d.astimezone(pytz.UTC)] gave [utc]: a datetime in UTC that shows the
    instant of [d]. *)
Definition same_instant_in_UTC (d : datetime) (tz : timezone) (utc : datetime) : Prop :=
  valid_datetime utc = true /\
  tzinfo utc = Some pytz_UTC /\
  wall_clock utc = wall_clock d - utcoffset tz.

End Calendar.

Module Form.
Import Datetime.

(** The form [yyyy-mm-dd] of the specification: four digits, a dash, two
    digits, a dash, two digits. *)
Definition is_digit (c : ascii) : bool := between 48 57 c.

Definition is_yyyy_mm_dd (s : string) : bool :=
  match s with
  | String y1 (String y2 (String y3 (String y4 (String h1
      (String m1 (String m2 (String h2 (String d1 (String d2 EmptyString))))))))) =>
      is_digit y1 && is_digit y2 && is_digit y3 && is_digit y4
      && Ascii.eqb h1 "-" && is_digit m1 && is_digit m2
      && Ascii.eqb h2 "-" && is_digit d1 && is_digit d2
  | _ => false
  end.

(** The year, month and day that a string of the form [yyyy-mm-dd]
    writes. *)
Definition fields (s : string) : date :=
  mkDate (int (substring 0 4 s)) (int (substring 5 2 s)) (int (substring 8 2 s)).

(** The part of [re_match] after the year: the month and day groups and the
    text left, for every way to match. *)
Definition months_days (rest : string) : list (string * string * string) :=
  flat_map (fun '(_, s2) =>
  flat_map (fun '(m, s3) =>
  flat_map (fun '(_, s4) =>
  map (fun '(d, s5) => (m, d, s5)) (re_d s4))
    (lit "-" s3)) (re_m s2)) (lit "-" rest).

Definition digits : list ascii :=
  ["0"; "1"; "2"; "3"; "4"; "5"; "6"; "7"; "8"; "9"]%char.

Definition two (a b : ascii) : string := String a (String b "").

(** A month from 01 to 12 and a day from 01 to 31, each of two digits, are
    matched whole, with nothing left. *)
Definition two_digit_groups_ok (m1 m2 d1 d2 : ascii) : bool :=
  implb ((1 <=? int (two m1 m2)) && (int (two m1 m2) <=? 12)
         && (1 <=? int (two d1 d2)) && (int (two d1 d2) <=? 31))
        match hd_error (months_days (String "-" (two m1 m2 ++ String "-" (two d1 d2)))) with
        | Some (m, d, rest) =>
            (m =? two m1 m2)%string && (d =? two d1 d2)%string && (rest =? "")%string
        | None => false
        end.

(** A string matches [yyyy-mm-dd] when it has the form and writes a date of
    the calendar. *)
Definition matches_yyyy_mm_dd (s : string) : bool :=
  is_yyyy_mm_dd s && valid_date (fields s).
End Form.

(** ** Requests and outcomes *)

(** The [Authorization] header for the token [t]. *)
Definition authorization (t : string) : list (string * string) :=
  [("Authorization", "Bearer " ++ t)].

(** The password grant that [authenticate] posts. *)
Definition auth_request (username password : string) : request :=
  mkRequest POST "https://api-portal.june.energy/oauth/token" [] []
    [("grant_type", "password"); ("username", username); ("password", password)].

(** What sending [rq] in state [st] gives: the failure of the transport,
    the [HTTPError] of an error status, the decoded body, or
    [JSONDecodeError]; and the state with [rq] added to the requests sent. *)
Definition outcome (net : transport) (st : state) (rq : request)
  : result pyval * state :=
  (match net (sent st) rq with
   | inl e => inl e
   | inr r =>
       if is_error r then inl (HTTPError r)
       else match json_body r with
            | Some v => inr v
            | None => inl JSONDecodeError
            end
   end, mkState (self st) (sent st ++ [rq])).

(** The operation sent nothing, or one [GET] that carries the bearer header
    of the token, which is truthy. *)
Definition at_most_one_authorized_get {A} (op : M A) (st : state) : Prop :=
  sent (snd (op st)) = sent st \/
  exists rq,
    sent (snd (op st)) = (sent st ++ [rq])%list /\
    req_method rq = GET /\
    req_headers rq = bearer (access_token (self st)) /\
    truthy (access_token (self st)) = true.

(** A computation that neither sends nor stores. *)
Definition quiet {A} (m : M A) : Prop :=
  forall st, snd (m st) = st.

(** [P] holds of the five operations that fetch, [get_measurements] being
    taken with dates that [_to_date] accepts. *)
Definition every_fetch (net : transport) (padded : bool) (P : M pyval -> Prop)
  : Prop :=
  P (Legacy.get_contracts net) /\
  (forall id, P (Legacy.get_devices net id)) /\
  P (Current.get_contracts net) /\
  (forall contract_id, P (Current.get_devices net contract_id)) /\
  (forall device_id period start end_ s e,
      Current._to_date padded start = inr s ->
      Current._to_date padded end_ = inr e ->
      P (Current.get_measurements net padded device_id period start end_)).

(** The table that the [pandas] calls of [get_measurements_dataframe] build
    from the records. *)
Definition table_of {frame column} (pd : Current.pandas frame column)
    (records : list pyval) : result frame :=
  match Current.from_records pd records with
  | inl e => inl e
  | inr df =>
      match Current.get_column pd df "start" with
      | inl e => inl e
      | inr c =>
          match Current.DatetimeIndex pd c with
          | inl e => inl e
          | inr index =>
              match Current.set_column pd df "start" index with
              | inl e => inl e
              | inr df' => Current.set_index pd df' "start"
              end
          end
      end
  end.

Module Written.
Import Datetime.

(** [zfill 4] of a year is four digits that read as the year. *)
Definition year_written (y : Z) : bool :=
  match zfill 4 (str_of_Z y) with
  | String a (String b (String c (String e EmptyString))) =>
      Form.is_digit a && Form.is_digit b && Form.is_digit c && Form.is_digit e
      && (int (String a (String b (String c (String e EmptyString)))) =? y)
  | _ => false
  end.

(** [zfill 2] of a month or a day is two digits that read as the number. *)
Definition two_written (n : Z) : bool :=
  match zfill 2 (str_of_Z n) with
  | String a (String b EmptyString) =>
      Form.is_digit a && Form.is_digit b
      && (int (String a (String b EmptyString)) =? n)
  | _ => false
  end.

(** A year from 1000 on has four digits: [zfill 4] adds nothing. *)
Definition four_wide (y : Z) : bool :=
  (zfill 4 (str_of_Z y) =? str_of_Z y)%string.

(** The time of day of a datetime, in microseconds. *)
Definition time_of_day (d : datetime) : Z :=
  (hour d * 3600 + minute d * 60 + second d) * 1000000 + microsecond d.
End Written.

(** ** Example data *)

(** A network that answers every request with the same response. *)
Definition always (r : response) : transport := fun _ _ => inr r.

Definition fresh (tok : pyval) : state := mkState (mkJune tok) [].

Definition two_contracts : pyval :=
  PyDict [("data", PyList [PyDict [("id", PyInt 1)]; PyDict [("id", PyInt 2)]])].

Definition one_contract : pyval :=
  PyDict [("data", PyList [PyDict [("id", PyInt 7)]])].

Definition attributes_1 : pyval :=
  PyDict [("created_at", PyStr "2019-01-01"); ("last_image_date", PyStr "2019-02-01")].
Definition attributes_2 : pyval :=
  PyDict [("created_at", PyStr "2019-03-01"); ("last_image_date", PyStr "2019-04-01")].
Definition device_1 : pyval := PyDict [("id", PyInt 1); ("attributes", attributes_1)].
Definition device_2 : pyval := PyDict [("id", PyInt 2); ("attributes", attributes_2)].
Definition two_devices : pyval := PyDict [("data", PyList [device_1; device_2])].

(** A stand-in for [dateutil.parser.parse] that reads [yyyy-mm-dd]. *)
Definition parse_Ymd (v : pyval) : result Datetime.datetime :=
  match v with
  | PyStr s => Datetime.strptime_Ymd s
  | _ => inl TypeError
  end.

Definition midnight (y m d : Z) : Datetime.datetime :=
  Datetime.mkDatetime (Datetime.mkDate y m d) 0 0 0 0 None.

(** 0500-03-01 at half past midnight, one hour east of UTC. *)
Definition early_year : Datetime.datetime :=
  Datetime.mkDatetime (Datetime.mkDate 500 3 1) 0 30 0 0
    (Some (Datetime.tz_offset 3600000000)).

(** 2020-01-15 at [h] o'clock, two hours east of UTC. *)
Definition plus_two_hours (h : Z) : Datetime.datetime :=
  Datetime.mkDatetime (Datetime.mkDate 2020 1 15) h 0 0 0
    (Some (Datetime.tz_offset 7200000000)).

(** ** Further example data *)

(** The answer of the token endpoint with the token [tok]. *)
Definition token_response (tok : pyval) : response :=
  mkResponse 200 (Some (PyDict [("access_token", tok)])).

(** A network that grants the token ["abc"] and lists two contracts. *)
Definition scripted : transport :=
  fun _ rq =>
    match req_method rq with
    | POST => inr (token_response (PyStr "abc"))
    | GET => inr (mkResponse 200 (Some two_contracts))
    end.

(** A network on which every call fails. *)
Definition down (e : exn) : transport := fun _ _ => inl e.

(** A device list whose second entry has no [id]. *)
Definition broken_devices : pyval :=
  PyDict [("data", PyList [device_1; PyDict [("name", PyStr "meter")]; device_2])].

Definition point (start : string) (value : Z) : pyval :=
  PyDict [("attributes", PyDict [("start", PyStr start); ("value", PyInt value)])].

Definition two_points : pyval :=
  PyDict [("data", PyList [point "2020-01-01" 3; point "2020-01-02" 5])].

(** A stand-in for [pandas] whose tables and columns are lists. *)
Definition list_pandas : Current.pandas (list pyval) (list pyval) :=
  Current.mkPandas (list pyval) (list pyval)
    (fun records => inr records)
    (fun df name => comprehension (fun record => getitem record name) df)
    (fun c => inr c)
    (fun df _ _ => inr df)
    (fun df _ => inr df).

(* ================================================================== *)
(** * The gate and the frame *)
(* ================================================================== *)

Create HintDb frame.

Section Frame.
Context {A B : Type}.

Lemma keeps_ret (a : A) : keeps_self (ret a).
Proof. intro st; reflexivity. Qed.

Lemma keeps_raise (e : exn) : keeps_self (@raise A e).
Proof. intro st; reflexivity. Qed.

Lemma keeps_lift (r : result A) : keeps_self (lift r).
Proof. intro st; reflexivity. Qed.

Lemma keeps_bind (m : M A) (k : A -> M B) :
  keeps_self m -> (forall a, keeps_self (k a)) -> keeps_self (bind m k).
Proof.
  intros Hm Hk st. unfold bind.
  specialize (Hm st). destruct (m st) as [[e | a] st']; simpl in *.
  - exact Hm.
  - rewrite Hk. exact Hm.
Qed.

Lemma keeps_if (b : bool) (m1 m2 : M A) :
  keeps_self m1 -> keeps_self m2 -> keeps_self (if b then m1 else m2).
Proof. destruct b; auto. Qed.
End Frame.

Lemma keeps_get_access_token : keeps_self get_access_token.
Proof. intro st; reflexivity. Qed.

Lemma keeps_send net rq : keeps_self (send net rq).
Proof. intro st; reflexivity. Qed.

Lemma keeps_raise_for_status r : keeps_self (raise_for_status r).
Proof. unfold raise_for_status. apply keeps_if; intro st; reflexivity. Qed.

Lemma keeps_json r : keeps_self (json r).
Proof. unfold json. destruct (json_body r); intro st; reflexivity. Qed.

#[global] Hint Resolve keeps_ret keeps_raise keeps_lift keeps_if
  keeps_get_access_token keeps_send keeps_raise_for_status keeps_json : frame.

Ltac frame :=
  repeat first
    [ apply keeps_bind; [ | intro ]
    | apply keeps_if
    | solve [ auto with frame ] ].

Section Gate.
Context {A : Type}.
Variable func : M A.
Variable st : state.

Lemma legacy_gate_closed :
  truthy (access_token (self st)) = false ->
  Legacy.authenticated func st = (unauthenticated, st).
Proof.
  intro H. unfold Legacy.authenticated, bind, get_access_token.
  rewrite H. reflexivity.
Qed.

Lemma legacy_gate_open :
  truthy (access_token (self st)) = true ->
  Legacy.authenticated func st = func st.
Proof.
  intro H. unfold Legacy.authenticated, bind, get_access_token.
  rewrite H. reflexivity.
Qed.

Lemma current_gate_closed :
  truthy (access_token (self st)) = false ->
  Current.authenticated func st = (unauthenticated, st).
Proof.
  intro H. unfold Current.authenticated, bind, get_access_token.
  rewrite H. reflexivity.
Qed.

Lemma current_gate_open :
  truthy (access_token (self st)) = true ->
  Current.authenticated func st = func st.
Proof.
  intro H. unfold Current.authenticated, bind, get_access_token.
  rewrite H. reflexivity.
Qed.
End Gate.

Lemma keeps_legacy_authenticated {A} (func : M A) :
  keeps_self func -> keeps_self (Legacy.authenticated func).
Proof. intro H. unfold Legacy.authenticated. frame. Qed.

Lemma keeps_current_authenticated {A} (func : M A) :
  keeps_self func -> keeps_self (Current.authenticated func).
Proof. intro H. unfold Current.authenticated. frame. Qed.

#[global] Hint Resolve keeps_legacy_authenticated keeps_current_authenticated : frame.

(* ================================================================== *)
(** * The operations of both clients *)
(* ================================================================== *)

Section Operations.
Variable net : transport.
Variable padded : bool.
Variable parse : pyval -> result Datetime.datetime.

(** ** Every operation but [authenticate] leaves the client as it is *)

Lemma keeps_legacy_get_contracts : keeps_self (Legacy.get_contracts net).
Proof. unfold Legacy.get_contracts. frame. Qed.

Lemma keeps_legacy_get_ids : keeps_self (Legacy.get_ids net).
Proof. unfold Legacy.get_ids. pose proof keeps_legacy_get_contracts. frame. Qed.

Lemma keeps_legacy_get_id : keeps_self (Legacy.get_id net).
Proof.
  unfold Legacy.get_id. pose proof keeps_legacy_get_ids. frame.
  destruct a as [| x [| y l]]; auto with frame.
Qed.

Lemma keeps_legacy_get_devices id : keeps_self (Legacy.get_devices net id).
Proof. unfold Legacy.get_devices. frame. Qed.

Lemma keeps_get_contracts : keeps_self (Current.get_contracts net).
Proof. unfold Current.get_contracts. frame. Qed.

Lemma keeps_get_contract_ids : keeps_self (Current.get_contract_ids net).
Proof. unfold Current.get_contract_ids. pose proof keeps_get_contracts. frame. Qed.

Lemma keeps_get_devices contract_id :
  keeps_self (Current.get_devices net contract_id).
Proof. unfold Current.get_devices. frame. Qed.

Lemma keeps_get_measurements device_id period start end_ :
  keeps_self (Current.get_measurements net padded device_id period start end_).
Proof. unfold Current.get_measurements. frame. Qed.

Lemma keeps_for_device device_id devices :
  keeps_self (Current.for_device parse device_id devices).
Proof.
  induction devices as [| device rest IH]; simpl.
  - auto with frame.
  - frame.
Qed.

Lemma keeps_get_start_end contract_id device_id :
  keeps_self (Current.get_start_end net parse contract_id device_id).
Proof.
  unfold Current.get_start_end.
  pose proof (keeps_get_devices contract_id).
  pose proof (keeps_for_device device_id).
  frame.
Qed.

(** ** A failing [authenticate] stores nothing *)

Lemma legacy_authenticate_fails username password st e st' :
  Legacy.authenticate net username password st = (inl e, st') ->
  self st' = self st.
Proof.
  unfold Legacy.authenticate, bind, send, raise_for_status, json, lift,
    set_access_token, raise, ret.
  destruct (net _ _) as [e0 | r]; simpl.
  - intro H; inversion H; reflexivity.
  - destruct (is_error r); simpl.
    + intro H; inversion H; reflexivity.
    + destruct (json_body r) as [j |]; simpl.
      * destruct (getitem j "access_token"); simpl;
          intro H; inversion H; reflexivity.
      * intro H; inversion H; reflexivity.
Qed.

Lemma current_authenticate_fails username password st e st' :
  Current.authenticate net username password st = (inl e, st') ->
  self st' = self st.
Proof.
  unfold Current.authenticate, bind, send, raise_for_status, json, lift,
    set_access_token, raise, ret.
  destruct (net _ _) as [e0 | r]; simpl.
  - intro H; inversion H; reflexivity.
  - destruct (is_error r); simpl.
    + intro H; inversion H; reflexivity.
    + destruct (json_body r) as [j |]; simpl.
      * destruct (getitem j "access_token"); simpl;
          intro H; inversion H; reflexivity.
      * intro H; inversion H; reflexivity.
Qed.

(** ** With a falsy token, nothing goes out *)

Lemma closed_gate_stops_everything st :
  truthy (access_token (self st)) = false ->
  Legacy.get_contracts net st = (unauthenticated, st) /\
  (forall id, Legacy.get_devices net id st = (unauthenticated, st)) /\
  Current.get_contracts net st = (unauthenticated, st) /\
  (forall contract_id,
      Current.get_devices net contract_id st = (unauthenticated, st)) /\
  (forall device_id period start end_,
      Current.get_measurements net padded device_id period start end_ st
      = (unauthenticated, st)).
Proof.
  intro H. repeat split; intros.
  - apply legacy_gate_closed, H.
  - apply legacy_gate_closed, H.
  - apply current_gate_closed, H.
  - apply current_gate_closed, H.
  - apply current_gate_closed, H.
Qed.

(** The operations built on the gated ones stop in the same way. *)
Lemma closed_gate_stops_derived st :
  truthy (access_token (self st)) = false ->
  Legacy.get_ids net st = (unauthenticated, st) /\
  Legacy.get_id net st = (unauthenticated, st) /\
  Current.get_contract_ids net st = (unauthenticated, st) /\
  (forall contract_id device_id,
      Current.get_start_end net parse contract_id device_id st
      = (unauthenticated, st)).
Proof.
  intro H.
  assert (L : Legacy.get_ids net st = (unauthenticated, st)).
  { unfold Legacy.get_ids, bind, Legacy.get_contracts.
    rewrite legacy_gate_closed by exact H. reflexivity. }
  repeat split; intros.
  - exact L.
  - unfold Legacy.get_id, bind. rewrite L. reflexivity.
  - unfold Current.get_contract_ids, bind, Current.get_contracts.
    rewrite current_gate_closed by exact H. reflexivity.
  - unfold Current.get_start_end, bind, Current.get_devices.
    rewrite current_gate_closed by exact H. reflexivity.
Qed.

(** ** One request, one response *)

(** The common end of every operation: send, check the status, decode. *)
Lemma exchange rq st :
  (r <- send net rq ;; raise_for_status r ;;; json r) st
  = (match net (sent st) rq with
     | inl e => inl e
     | inr r =>
         if is_error r then inl (HTTPError r)
         else match json_body r with
              | Some v => inr v
              | None => inl JSONDecodeError
              end
     end, mkState (self st) (sent st ++ [rq])).
Proof.
  unfold bind, send, raise_for_status, json.
  destruct (net (sent st) rq) as [e | r]; simpl; [reflexivity |].
  destruct (is_error r); simpl; [reflexivity |].
  destruct (json_body r); reflexivity.
Qed.

Lemma legacy_get_contracts_open st :
  truthy (access_token (self st)) = true ->
  exists rq,
    Legacy.get_contracts net st
    = (r <- send net rq ;; raise_for_status r ;;; json r) st.
Proof.
  intro H. unfold Legacy.get_contracts. rewrite legacy_gate_open by exact H.
  eexists. reflexivity.
Qed.

Lemma legacy_get_devices_open id st :
  truthy (access_token (self st)) = true ->
  exists rq,
    Legacy.get_devices net id st
    = (r <- send net rq ;; raise_for_status r ;;; json r) st.
Proof.
  intro H. unfold Legacy.get_devices. rewrite legacy_gate_open by exact H.
  eexists. reflexivity.
Qed.

Lemma get_contracts_open st :
  truthy (access_token (self st)) = true ->
  exists rq,
    Current.get_contracts net st
    = (r <- send net rq ;; raise_for_status r ;;; json r) st.
Proof.
  intro H. unfold Current.get_contracts. rewrite current_gate_open by exact H.
  eexists. reflexivity.
Qed.

Lemma get_devices_open contract_id st :
  truthy (access_token (self st)) = true ->
  exists rq,
    Current.get_devices net contract_id st
    = (r <- send net rq ;; raise_for_status r ;;; json r) st.
Proof.
  intro H. unfold Current.get_devices. rewrite current_gate_open by exact H.
  eexists. reflexivity.
Qed.

Lemma get_measurements_open device_id period start end_ s e st :
  truthy (access_token (self st)) = true ->
  Current._to_date padded start = inr s ->
  Current._to_date padded end_ = inr e ->
  exists rq,
    Current.get_measurements net padded device_id period start end_ st
    = (r <- send net rq ;; raise_for_status r ;;; json r) st.
Proof.
  intros H Hs He. unfold Current.get_measurements.
  rewrite current_gate_open by exact H.
  unfold bind at 1, lift at 1. rewrite Hs.
  unfold bind at 1, lift at 1. rewrite He.
  eexists. reflexivity.
Qed.

(** A bad date stops [get_measurements] before anything is sent. *)
Lemma get_measurements_bad_date device_id period start end_ st :
  truthy (access_token (self st)) = true ->
  (forall s e, Current._to_date padded start = inr s ->
               Current._to_date padded end_ = inr e -> False) ->
  exists e,
    Current.get_measurements net padded device_id period start end_ st = (inl e, st).
Proof.
  intros H Hbad. unfold Current.get_measurements.
  rewrite current_gate_open by exact H.
  unfold bind, lift.
  destruct (Current._to_date padded start) as [e1 | s]; [eexists; reflexivity |].
  destruct (Current._to_date padded end_) as [e2 | e]; [eexists; reflexivity |].
  exfalso. eapply Hbad; reflexivity.
Qed.

(** ** Id extraction and the device scan *)

Lemma comprehension_ids entries ids :
  Forall2 (fun entry id => getitem entry "id" = inr id) entries ids ->
  comprehension (fun contract => getitem contract "id") entries = inr ids.
Proof.
  induction 1 as [| entry id entries ids Hid _ IH]; simpl.
  - reflexivity.
  - rewrite Hid, IH. reflexivity.
Qed.

Lemma for_device_skip device_id pre rest st :
  Forall (other_device device_id) pre ->
  Current.for_device parse device_id (pre ++ rest) st
  = Current.for_device parse device_id rest st.
Proof.
  induction 1 as [| device pre [id [Hid Hne]] _ IH]; simpl.
  - reflexivity.
  - unfold bind at 1, lift at 1. rewrite Hid, Hne. exact IH.
Qed.

Lemma for_device_absent device_id devices st :
  Forall (other_device device_id) devices ->
  Current.for_device parse device_id devices st = (inr (None, None), st).
Proof.
  intro H. rewrite <- (app_nil_r devices).
  rewrite for_device_skip by exact H. reflexivity.
Qed.

Lemma for_device_found device_id device rest st id attributes c l start end_ :
  getitem device "id" = inr id ->
  eq_int id device_id = true ->
  getitem device "attributes" = inr attributes ->
  getitem attributes "created_at" = inr c ->
  getitem attributes "last_image_date" = inr l ->
  parse c = inr start ->
  parse l = inr end_ ->
  Current.for_device parse device_id (device :: rest) st
  = (inr (Some start, Some end_), st).
Proof.
  intros Hid Heq Hattr Hc Hl Hs He. simpl. unfold bind, lift.
  rewrite Hid, Heq, Hattr, Hc, Hs, Hl, He. reflexivity.
Qed.

(** ** The claims about the operations *)

(** C1: on a client whose [access_token] is absent ([None]), each
    data-fetching operation of either module ([get_contracts],
    [get_devices], [get_measurements]) raises [NotAuthenticatedError] at
    once: the state it leaves is the state it found, so no request has
    been issued. *)
Theorem C1_absent_token_raises_before_any_request st :
  access_token (self st) = PyNone ->
  Legacy.get_contracts net st = (unauthenticated, st) /\
  (forall id, Legacy.get_devices net id st = (unauthenticated, st)) /\
  Current.get_contracts net st = (unauthenticated, st) /\
  (forall contract_id,
      Current.get_devices net contract_id st = (unauthenticated, st)) /\
  (forall device_id period start end_,
      Current.get_measurements net padded device_id period start end_ st
      = (unauthenticated, st)).
Proof.
  intro H. apply closed_gate_stops_everything. rewrite H. reflexivity.
Qed.

(** C10: the gate tests the truth value of the token, not its presence: on
    a client whose [access_token] is the empty string, or any other falsy
    value, every gated operation raises [NotAuthenticatedError] and
    nothing is sent. *)
Theorem C10_falsy_token_is_unauthenticated st :
  truthy (access_token (self st)) = false ->
  Legacy.get_contracts net st = (unauthenticated, st) /\
  (forall id, Legacy.get_devices net id st = (unauthenticated, st)) /\
  Current.get_contracts net st = (unauthenticated, st) /\
  (forall contract_id,
      Current.get_devices net contract_id st = (unauthenticated, st)) /\
  (forall device_id period start end_,
      Current.get_measurements net padded device_id period start end_ st
      = (unauthenticated, st)).
Proof. exact (closed_gate_stops_everything st). Qed.

(** C4: when the contracts payload has a [data] array whose entries carry
    an [id], [get_contract_ids] (current) and [get_ids] (legacy) return the
    ids of all the entries, in the order of the array. *)
Theorem C4_ids_of_every_entry_in_order st st' payload entries ids :
  getitem payload "data" = inr (PyList entries) ->
  Forall2 (fun entry id => getitem entry "id" = inr id) entries ids ->
  (Current.get_contracts net st = (inr payload, st') ->
   Current.get_contract_ids net st = (inr ids, st')) /\
  (Legacy.get_contracts net st = (inr payload, st') ->
   Legacy.get_ids net st = (inr ids, st')).
Proof.
  intros Hdata Hids. apply comprehension_ids in Hids. split; intro Hget.
  - unfold Current.get_contract_ids, bind, lift.
    rewrite Hget, Hdata. simpl. rewrite Hids. reflexivity.
  - unfold Legacy.get_ids, bind, lift.
    rewrite Hget, Hdata. simpl. rewrite Hids. reflexivity.
Qed.

(** C5: [get_id] returns the only id when [get_ids] gives a list of length
    one, and raises [MultipleIdError] when the list is empty or has two or
    more entries. *)
Theorem C5_single_id_or_error st st' ids :
  Legacy.get_ids net st = (inr ids, st') ->
  (forall id, ids = [id] -> Legacy.get_id net st = (inr id, st')) /\
  (List.length ids <> 1%nat ->
   Legacy.get_id net st
   = (inl (MultipleIdError "0 or more than 1 ids, cannot return single Id"), st')).
Proof.
  intro Hids. unfold Legacy.get_id, bind. rewrite Hids. split.
  - intros id ->. reflexivity.
  - intro Hlen. destruct ids as [| x [| y l]]; try reflexivity.
    exfalso. apply Hlen. reflexivity.
Qed.

(** C6: [get_start_end] scans the [data] list of the devices payload from
    the front.  When an entry has the device id and the entries before it
    have other ids, the parsed [created_at] and [last_image_date] of that
    first entry are returned; when every entry has another id, the result
    is [(None, None)] and no exception is raised. *)
Theorem C6_linear_scan_first_match_or_none
    st st' contract_id device_id payload entries :
  Current.get_devices net contract_id st = (inr payload, st') ->
  getitem payload "data" = inr (PyList entries) ->
  (forall pre device post id attributes c l start end_,
      entries = (pre ++ device :: post)%list ->
      Forall (other_device device_id) pre ->
      getitem device "id" = inr id ->
      eq_int id device_id = true ->
      getitem device "attributes" = inr attributes ->
      getitem attributes "created_at" = inr c ->
      getitem attributes "last_image_date" = inr l ->
      parse c = inr start ->
      parse l = inr end_ ->
      Current.get_start_end net parse contract_id device_id st
      = (inr (Some start, Some end_), st')) /\
  (Forall (other_device device_id) entries ->
   Current.get_start_end net parse contract_id device_id st
   = (inr (None, None), st')).
Proof.
  intros Hget Hdata.
  assert (Hscan : Current.get_start_end net parse contract_id device_id st
                  = Current.for_device parse device_id entries st').
  { unfold Current.get_start_end, bind, lift. rewrite Hget, Hdata. reflexivity. }
  rewrite Hscan. split.
  - intros pre device post id attributes c l start end_ -> Hpre **.
    rewrite for_device_skip by exact Hpre.
    eapply for_device_found; eassumption.
  - intro Hnone. apply for_device_absent, Hnone.
Qed.

(** C7: only [authenticate] writes to the client.  The data-fetching
    operations of both modules leave the client object, hence its
    [access_token], as it was, whatever their outcome; and when
    [authenticate] fails (transport failure, error status, body that is not
    JSON or has no [access_token]) the stored token is unchanged too. *)
Theorem C7_only_authenticate_writes_the_token st :
  (self (snd (Current.get_contracts net st)) = self st /\
   self (snd (Current.get_contract_ids net st)) = self st /\
   (forall contract_id,
       self (snd (Current.get_devices net contract_id st)) = self st) /\
   (forall device_id period start end_,
       self (snd (Current.get_measurements net padded device_id period start end_ st))
       = self st) /\
   (forall contract_id device_id,
       self (snd (Current.get_start_end net parse contract_id device_id st))
       = self st)) /\
  (self (snd (Legacy.get_contracts net st)) = self st /\
   self (snd (Legacy.get_ids net st)) = self st /\
   self (snd (Legacy.get_id net st)) = self st /\
   (forall id, self (snd (Legacy.get_devices net id st)) = self st)) /\
  (forall username password e st',
      (Current.authenticate net username password st = (inl e, st') ->
       access_token (self st') = access_token (self st)) /\
      (Legacy.authenticate net username password st = (inl e, st') ->
       access_token (self st') = access_token (self st))).
Proof.
  repeat split; intros.
  - apply keeps_get_contracts.
  - apply keeps_get_contract_ids.
  - apply keeps_get_devices.
  - apply keeps_get_measurements.
  - apply keeps_get_start_end.
  - apply keeps_legacy_get_contracts.
  - apply keeps_legacy_get_ids.
  - apply keeps_legacy_get_id.
  - apply keeps_legacy_get_devices.
  - f_equal. eapply current_authenticate_fails; eassumption.
  - f_equal. eapply legacy_authenticate_fails; eassumption.
Qed.

(** C9: on every network and every state, the legacy [get_ids] and the
    current [get_contract_ids] have the same outcome: the same list of ids
    or the same exception, and the same requests sent. *)
Theorem C9_get_ids_equals_get_contract_ids st :
  Legacy.get_ids net st = Current.get_contract_ids net st.
Proof.
  unfold Legacy.get_ids, Current.get_contract_ids.
  unfold Legacy.get_contracts, Current.get_contracts.
  unfold Legacy.authenticated, Current.authenticated.
  reflexivity.
Qed.

(** ** Status codes *)

Lemma exchange_error rq st r :
  net (sent st) rq = inr r ->
  is_error r = true ->
  raises_status (r <- send net rq ;; raise_for_status r ;;; json r) st r.
Proof.
  intros Hnet Herr. unfold raises_status, one_request.
  rewrite exchange, Hnet, Herr. simpl. split; [reflexivity | eauto].
Qed.

Lemma exchange_body rq st r v :
  net (sent st) rq = inr r ->
  is_error r = false ->
  json_body r = Some v ->
  returns_body (r <- send net rq ;; raise_for_status r ;;; json r) st v.
Proof.
  intros Hnet Herr Hbody. unfold returns_body, one_request.
  rewrite exchange, Hnet, Herr, Hbody. simpl. split; [reflexivity | eauto].
Qed.

Lemma raises_status_ext {A} (op op' : M A) st r :
  op st = op' st -> raises_status op' st r -> raises_status op st r.
Proof. unfold raises_status, one_request. intros ->. auto. Qed.

Lemma returns_body_ext (op op' : M pyval) st v :
  op st = op' st -> returns_body op' st v -> returns_body op st v.
Proof. unfold returns_body, one_request. intros ->. auto. Qed.

Lemma legacy_authenticate_error username password st r :
  (forall rq, net (sent st) rq = inr r) ->
  is_error r = true ->
  raises_status (Legacy.authenticate net username password) st r.
Proof.
  intros Hnet Herr. unfold raises_status, one_request.
  unfold Legacy.authenticate, bind, send, raise_for_status.
  rewrite Hnet, Herr. simpl. split; [reflexivity | eauto].
Qed.

Lemma current_authenticate_error username password st r :
  (forall rq, net (sent st) rq = inr r) ->
  is_error r = true ->
  raises_status (Current.authenticate net username password) st r.
Proof.
  intros Hnet Herr. unfold raises_status, one_request.
  unfold Current.authenticate, bind, send, raise_for_status.
  rewrite Hnet, Herr. simpl. split; [reflexivity | eauto].
Qed.

Lemma legacy_authenticate_stores username password st r j tok :
  (forall rq, net (sent st) rq = inr r) ->
  is_error r = false ->
  json_body r = Some j ->
  getitem j "access_token" = inr tok ->
  fst (Legacy.authenticate net username password st) = inr tt /\
  access_token (self (snd (Legacy.authenticate net username password st))) = tok /\
  one_request (Legacy.authenticate net username password) st.
Proof.
  intros Hnet Herr Hbody Htok. unfold one_request.
  unfold Legacy.authenticate, bind, send, raise_for_status, json, lift.
  rewrite Hnet, Herr. simpl. rewrite Hbody. simpl. rewrite Htok. simpl.
  repeat split. eauto.
Qed.

Lemma current_authenticate_stores username password st r j tok :
  (forall rq, net (sent st) rq = inr r) ->
  is_error r = false ->
  json_body r = Some j ->
  getitem j "access_token" = inr tok ->
  fst (Current.authenticate net username password st) = inr tt /\
  access_token (self (snd (Current.authenticate net username password st))) = tok /\
  one_request (Current.authenticate net username password) st.
Proof.
  intros Hnet Herr Hbody Htok. unfold one_request.
  unfold Current.authenticate, bind, send, raise_for_status, json, lift.
  rewrite Hnet, Herr. simpl. rewrite Hbody. simpl. rewrite Htok. simpl.
  repeat split. eauto.
Qed.

(** C8, as the code has it: when the response to the request of an
    operation has a client-error or server-error status (400 to 599), the
    operation raises the [HTTPError] that holds this response, having sent
    one request and no more.  On every other status, 2xx among them, no
    such error is raised: the data-fetching operations return the decoded
    JSON body, and [authenticate] stores its [access_token].  This holds of
    [authenticate] in every state, and of the data-fetching operations
    where they issue a request: with a truthy token and, for
    [get_measurements], dates that [_to_date] accepts. *)
Theorem C8_error_status_raises_and_other_status_returns
    st r username password id contract_id device_id period start end_ :
  (forall rq, net (sent st) rq = inr r) ->
  (is_error r = true ->
   raises_status (Legacy.authenticate net username password) st r /\
   raises_status (Current.authenticate net username password) st r /\
   (truthy (access_token (self st)) = true ->
    raises_status (Legacy.get_contracts net) st r /\
    raises_status (Legacy.get_devices net id) st r /\
    raises_status (Current.get_contracts net) st r /\
    raises_status (Current.get_devices net contract_id) st r /\
    (forall s e,
        Current._to_date padded start = inr s ->
        Current._to_date padded end_ = inr e ->
        raises_status
          (Current.get_measurements net padded device_id period start end_) st r)))
  /\
  (is_error r = false ->
   forall v, json_body r = Some v ->
   (forall tok, getitem v "access_token" = inr tok ->
      (fst (Legacy.authenticate net username password st) = inr tt /\
       access_token (self (snd (Legacy.authenticate net username password st))) = tok /\
       one_request (Legacy.authenticate net username password) st) /\
      (fst (Current.authenticate net username password st) = inr tt /\
       access_token (self (snd (Current.authenticate net username password st))) = tok /\
       one_request (Current.authenticate net username password) st)) /\
   (truthy (access_token (self st)) = true ->
    returns_body (Legacy.get_contracts net) st v /\
    returns_body (Legacy.get_devices net id) st v /\
    returns_body (Current.get_contracts net) st v /\
    returns_body (Current.get_devices net contract_id) st v /\
    (forall s e,
        Current._to_date padded start = inr s ->
        Current._to_date padded end_ = inr e ->
        returns_body
          (Current.get_measurements net padded device_id period start end_) st v))).
Proof.
  intro Hnet. split.
  - intro Herr.
    split; [apply legacy_authenticate_error; assumption |].
    split; [apply current_authenticate_error; assumption |].
    intro Htok.
    destruct (legacy_get_contracts_open st Htok) as [rq1 E1].
    destruct (legacy_get_devices_open id st Htok) as [rq2 E2].
    destruct (get_contracts_open st Htok) as [rq3 E3].
    destruct (get_devices_open contract_id st Htok) as [rq4 E4].
    split; [eapply raises_status_ext; [exact E1 | apply exchange_error; auto] |].
    split; [eapply raises_status_ext; [exact E2 | apply exchange_error; auto] |].
    split; [eapply raises_status_ext; [exact E3 | apply exchange_error; auto] |].
    split; [eapply raises_status_ext; [exact E4 | apply exchange_error; auto] |].
    intros s e Hs He.
    destruct (get_measurements_open device_id period start end_ s e st Htok Hs He)
      as [rq5 E5].
    eapply raises_status_ext; [exact E5 | apply exchange_error; auto].
  - intros Herr v Hbody. split.
    + intros tok Hget. split.
      * apply (legacy_authenticate_stores username password st r v tok); assumption.
      * apply (current_authenticate_stores username password st r v tok); assumption.
    + intro Htok.
      destruct (legacy_get_contracts_open st Htok) as [rq1 E1].
      destruct (legacy_get_devices_open id st Htok) as [rq2 E2].
      destruct (get_contracts_open st Htok) as [rq3 E3].
      destruct (get_devices_open contract_id st Htok) as [rq4 E4].
      split; [eapply returns_body_ext; [exact E1 | apply (exchange_body _ _ r); auto] |].
      split; [eapply returns_body_ext; [exact E2 | apply (exchange_body _ _ r); auto] |].
      split; [eapply returns_body_ext; [exact E3 | apply (exchange_body _ _ r); auto] |].
      split; [eapply returns_body_ext; [exact E4 | apply (exchange_body _ _ r); auto] |].
      intros s e Hs He.
      destruct (get_measurements_open device_id period start end_ s e st Htok Hs He)
        as [rq5 E5].
      eapply returns_body_ext; [exact E5 | apply (exchange_body _ _ r); auto].
Qed.

End Operations.

(* ================================================================== *)
(** * The operations on concrete networks *)
(* ================================================================== *)

Lemma C1_witness :
  access_token (self (fresh PyNone)) = PyNone /\
  Current.get_contracts (always (mkResponse 200 (Some two_contracts))) (fresh PyNone)
  = (unauthenticated, fresh PyNone).
Proof.
  split; [reflexivity |].
  exact (proj1 (proj2 (proj2
    (C1_absent_token_raises_before_any_request
       (always (mkResponse 200 (Some two_contracts))) false (fresh PyNone)
       eq_refl)))).
Defined.

Lemma C10_witness :
  truthy (access_token (self (fresh (PyStr "")))) = false /\
  Legacy.get_devices (always (mkResponse 200 (Some two_devices))) 3 (fresh (PyStr ""))
  = (unauthenticated, fresh (PyStr "")).
Proof.
  split; [reflexivity |].
  exact (proj1 (proj2
    (C10_falsy_token_is_unauthenticated
       (always (mkResponse 200 (Some two_devices))) false (fresh (PyStr ""))
       eq_refl)) 3).
Defined.

Lemma C4_witness :
  let net := always (mkResponse 200 (Some two_contracts)) in
  let st := fresh (PyStr "t") in
  exists st',
    Current.get_contract_ids net st = (inr [PyInt 1; PyInt 2], st') /\
    Legacy.get_ids net st = (inr [PyInt 1; PyInt 2], st').
Proof.
  intros net st.
  exists (snd (Current.get_contracts net st)).
  destruct (C4_ids_of_every_entry_in_order net st
              (snd (Current.get_contracts net st)) two_contracts
              [PyDict [("id", PyInt 1)]; PyDict [("id", PyInt 2)]]
              [PyInt 1; PyInt 2] eq_refl) as [H1 H2].
  - repeat constructor.
  - split; [apply H1 | apply H2]; reflexivity.
Defined.

Lemma C5_witness :
  let net := always (mkResponse 200 (Some one_contract)) in
  let st := fresh (PyStr "t") in
  fst (Legacy.get_ids net st) = inr [PyInt 7] /\
  fst (Legacy.get_id net st) = inr (PyInt 7).
Proof.
  intros net st. split; [reflexivity |].
  destruct (C5_single_id_or_error net st (snd (Legacy.get_ids net st)) [PyInt 7]
              eq_refl) as [H _].
  rewrite (H (PyInt 7) eq_refl). reflexivity.
Defined.

Lemma C6_witness :
  let net := always (mkResponse 200 (Some two_devices)) in
  let st := fresh (PyStr "t") in
  fst (Current.get_start_end net parse_Ymd 5 2 st)
  = inr (Some (midnight 2019 3 1), Some (midnight 2019 4 1)) /\
  fst (Current.get_start_end net parse_Ymd 5 9 st) = inr (None, None).
Proof.
  intros net st.
  destruct (C6_linear_scan_first_match_or_none net parse_Ymd st
              (snd (Current.get_devices net 5 st)) 5 2 two_devices _
              eq_refl eq_refl) as [Hfound _].
  destruct (C6_linear_scan_first_match_or_none net parse_Ymd st
              (snd (Current.get_devices net 5 st)) 5 9 two_devices _
              eq_refl eq_refl) as [_ Habsent].
  assert (H1 : other_device 2 device_1) by (exists (PyInt 1); split; reflexivity).
  assert (H1' : other_device 9 device_1) by (exists (PyInt 1); split; reflexivity).
  assert (H2' : other_device 9 device_2) by (exists (PyInt 2); split; reflexivity).
  split.
  - rewrite (Hfound [device_1] device_2 [] (PyInt 2) attributes_2
               (PyStr "2019-03-01") (PyStr "2019-04-01")
               (midnight 2019 3 1) (midnight 2019 4 1)
               eq_refl (Forall_cons _ H1 (Forall_nil _))
               eq_refl eq_refl eq_refl eq_refl eq_refl eq_refl eq_refl).
    reflexivity.
  - rewrite (Habsent (Forall_cons _ H1' (Forall_cons _ H2' (Forall_nil _)))).
    reflexivity.
Defined.

Lemma C7_witness :
  let net := always (mkResponse 500 None) in
  let st := fresh (PyStr "old") in
  exists e st',
    Current.authenticate net "user" "secret" st = (inl e, st') /\
    access_token (self st') = PyStr "old".
Proof.
  intros net st.
  exists (HTTPError (mkResponse 500 None)).
  exists (snd (Current.authenticate net "user" "secret" st)).
  split; [reflexivity |].
  destruct (C7_only_authenticate_writes_the_token net false parse_Ymd st)
    as [_ [_ H]].
  destruct (H "user" "secret" (HTTPError (mkResponse 500 None))
              (snd (Current.authenticate net "user" "secret" st))) as [Hc _].
  rewrite Hc; reflexivity.
Defined.

Lemma C8_witness :
  let r := mkResponse 404 (Some (PyDict [("error", PyStr "not found")])) in
  let st := fresh (PyStr "t") in
  is_error r = true /\
  raises_status (Current.authenticate (always r) "user" "secret") (fresh PyNone) r /\
  raises_status
    (Current.get_measurements (always r) false 12 0
       (Current.a_str "2020-01-01") (Current.a_str "2020-01-31")) st r.
Proof.
  intros r st. split; [reflexivity |]. split.
  - destruct (C8_error_status_raises_and_other_status_returns (always r) false
                (fresh PyNone) r "user" "secret" 1 2 12 0
                (Current.a_str "2020-01-01") (Current.a_str "2020-01-31")
                (fun _ => eq_refl)) as [H _].
    exact (proj1 (proj2 (H eq_refl))).
  - destruct (C8_error_status_raises_and_other_status_returns (always r) false
                st r "user" "secret" 1 2 12 0
                (Current.a_str "2020-01-01") (Current.a_str "2020-01-31")
                (fun _ => eq_refl)) as [H _].
    destruct (H eq_refl) as [_ [_ G]].
    destruct (G eq_refl) as [_ [_ [_ [_ F]]]].
    exact (F "2020-01-01" "2020-01-31" eq_refl eq_refl).
Defined.

(** C8 as stated fails on a status that is neither 2xx nor an error: the
    response 300 is not 2xx, yet [raise_for_status] lets it through and
    [get_contracts] returns its body instead of raising. *)
Lemma C8_status_300_is_not_raised :
  let r := mkResponse 300 (Some (PyDict [])) in
  let st := fresh (PyStr "t") in
  is_2xx r = false /\
  (forall rq, always r (sent st) rq = inr r) /\
  fst (Current.get_contracts (always r) st) = inr (PyDict []) /\
  fst (Current.get_contracts (always r) st) <> inl (HTTPError r).
Proof.
  cbv zeta. repeat split. discriminate.
Qed.

(* ================================================================== *)
(** * Ordinals and dates *)
(* ================================================================== *)

Module CalendarFacts.
Import Datetime.
Import Calendar.

Lemma all_from_spec depth f :
  forall lo, all_from depth f lo = true ->
  forall r, lo <= r < lo + pow2 depth -> f r = true.
Proof.
  induction depth as [| k IH]; cbn [all_from pow2]; intros lo H r Hr.
  - replace r with lo by lia. exact H.
  - apply andb_true_iff in H. destruct H as [H1 H2].
    destruct (Z_lt_ge_dec r (lo + pow2 k)).
    + apply (IH lo H1). lia.
    + apply (IH (lo + pow2 k) H2). lia.
Qed.

(** The days of a year, checked one by one. *)
Lemma month_day_spec (leapyear : bool) n :
  0 <= n < 365 + (if leapyear then 1 else 0) ->
  month_day_ok leapyear n = true.
Proof.
  intro Hn.
  assert (H : forall b : bool,
             all_from 9 (fun n => (365 + (if b then 1 else 0) <=? n)
                                  || month_day_ok b n) 0 = true)
    by (intros [|]; vm_compute; reflexivity).
  pose proof (all_from_spec 9 _ 0 (H leapyear) n) as Hf. cbv beta in Hf.
  assert (P : pow2 9 = 512) by reflexivity.
  destruct (365 + (if leapyear then 1 else 0) <=? n) eqn:E.
  - apply Z.leb_le in E. lia.
  - apply Hf. destruct leapyear; lia.
Qed.

Lemma leap_iff y :
  _is_leap y = true <-> y mod 4 = 0 /\ (y mod 100 <> 0 \/ y mod 400 = 0).
Proof.
  unfold _is_leap. rewrite andb_true_iff, orb_true_iff, negb_true_iff.
  rewrite !Z.eqb_eq, Z.eqb_neq. tauto.
Qed.

Ltac divmod := Z.div_mod_to_equations; lia.

(** The start of [_ord2ymd]: the year of day [m + 1], and the day of the
    year that is left. *)
Lemma year_part m :
  0 <= m ->
  let n400 := m / _DI400Y in
  let r1 := m mod _DI400Y in
  let n100 := r1 / _DI100Y in
  let r2 := r1 mod _DI100Y in
  let n4 := r2 / _DI4Y in
  let r3 := r2 mod _DI4Y in
  let n1 := r3 / 365 in
  let r4 := r3 mod 365 in
  let y := n400 * 400 + 1 + n100 * 100 + n4 * 4 + n1 in
  if (n1 =? 4) || (n100 =? 4)
  then 1 <= y - 1 /\ _is_leap (y - 1) = true /\
       _days_before_year (y - 1) + 366 = m + 1
  else 1 <= y /\
       (n1 =? 3) && (negb (n4 =? 24) || (n100 =? 3)) = _is_leap y /\
       _days_before_year y + r4 = m /\
       0 <= r4 < 365 + (if _is_leap y then 1 else 0).
Proof.
  intros Hm n400 r1 n100 r2 n4 r3 n1 r4 y.
  assert (L : n1 <> 4 /\ n100 <> 4 ->
              (_is_leap y = true <-> n1 = 3 /\ (n4 <> 24 \/ n100 = 3))).
  { intros [E1 E2]. rewrite leap_iff.
    subst y n1 r4 r3 n4 r2 n100 r1 n400.
    unfold _DI400Y, _DI100Y, _DI4Y in *. divmod. }
  assert (A : n1 = 4 \/ n100 = 4 ->
              1 <= y - 1 /\ _is_leap (y - 1) = true /\
              _days_before_year (y - 1) + 366 = m + 1).
  { clear L. intro E. rewrite leap_iff. unfold _days_before_year. cbv zeta.
    subst y n1 r4 r3 n4 r2 n100 r1 n400.
    unfold _DI400Y, _DI100Y, _DI4Y in *. divmod. }
  destruct (Z.eqb_spec n1 4) as [E1 | E1];
    [ | destruct (Z.eqb_spec n100 4) as [E2 | E2]]; cbn [orb]; auto.
  clear A. specialize (L (conj E1 E2)).
  split; [| split; [| split]].
  - clear L. subst y n1 r4 r3 n4 r2 n100 r1 n400.
    unfold _DI400Y, _DI100Y, _DI4Y in *. divmod.
  - apply eq_iff_eq_true.
    rewrite L, andb_true_iff, orb_true_iff, negb_true_iff, !Z.eqb_eq, Z.eqb_neq.
    tauto.
  - clear L. unfold _days_before_year. cbv zeta.
    subst y n1 r4 r3 n4 r2 n100 r1 n400.
    unfold _DI400Y, _DI100Y, _DI4Y in *. divmod.
  - destruct (_is_leap y) eqn:EL.
    + clear L EL. subst y n1 r4 r3 n4 r2 n100 r1 n400.
      unfold _DI400Y, _DI100Y, _DI4Y in *. divmod.
    + assert (NL : ~ (n1 = 3 /\ (n4 <> 24 \/ n100 = 3)))
        by (rewrite <- L; discriminate).
      clear L EL. subst y n1 r4 r3 n4 r2 n100 r1 n400.
      unfold _DI400Y, _DI100Y, _DI4Y in *. divmod.
Qed.

Lemma ord2ymd_unfold n0 :
  _ord2ymd n0
  = let m := n0 - 1 in
    let n400 := m / _DI400Y in
    let r1 := m mod _DI400Y in
    let n100 := r1 / _DI100Y in
    let r2 := r1 mod _DI100Y in
    let n4 := r2 / _DI4Y in
    let r3 := r2 mod _DI4Y in
    let n1 := r3 / 365 in
    let r4 := r3 mod 365 in
    let y := n400 * 400 + 1 + n100 * 100 + n4 * 4 + n1 in
    if (n1 =? 4) || (n100 =? 4) then mkDate (y - 1) 12 31
    else
      let (month, day) :=
        month_day ((n1 =? 3) && (negb (n4 =? 24) || (n100 =? 3))) r4 in
      mkDate y month day.
Proof.
  unfold _ord2ymd, month_day. cbv zeta.
  destruct (_ || _); [reflexivity |].
  destruct (_ <? _); reflexivity.
Qed.

(** No day after the last day of year 9999 is below [_MAXORDINAL]. *)
Lemma year_in_range y r n :
  1 <= y -> 0 <= r -> _days_before_year y + r = n - 1 -> n <= _MAXORDINAL ->
  y <= MAXYEAR.
Proof.
  unfold _days_before_year, _MAXORDINAL, MAXYEAR. cbv zeta. intros. divmod.
Qed.

(** [date.fromordinal] gives a date, and [toordinal] leads back. *)
Lemma ord2ymd_spec n :
  1 <= n <= _MAXORDINAL ->
  valid_date (_ord2ymd n) = true /\ toordinal (_ord2ymd n) = n.
Proof.
  intro Hn.
  pose proof (year_part (n - 1) ltac:(lia)) as Y.
  rewrite ord2ymd_unfold. cbv zeta in *. revert Y.
  match goal with
  | |- context [if ?c then mkDate _ 12 31 else _] => destruct c
  end.
  - match goal with
    | |- context [mkDate ?y1 12 31] => generalize y1
    end.
    intros y [Hy [Hleap Hord]].
    assert (y <= MAXYEAR) by (apply (year_in_range y 365 n); lia).
    unfold valid_date, toordinal, _ymd2ord, _days_in_month, _days_before_month.
    cbn [year month day]. rewrite Hleap. unfold MINYEAR in *. cbn.
    split; [| lia].
    repeat (apply andb_true_iff; split); lia.
  - match goal with
    | |- context [month_day ?b ?r] => generalize r; generalize b
    end.
    match goal with
    | |- context [_is_leap ?y1] => generalize y1
    end.
    intros y b r [Hy [Hleap [Hord Hr]]]. subst b.
    assert (y <= MAXYEAR) by (apply (year_in_range y r n); lia).
    pose proof (month_day_spec (_is_leap y) r Hr) as Hmd.
    unfold month_day_ok in Hmd.
    destruct (month_day (_is_leap y) r) as [m d].
    repeat rewrite andb_true_iff in Hmd.
    destruct Hmd as [[[[H1 H2] H3] H4] H5].
    unfold valid_date, toordinal, _ymd2ord, _days_in_month, _days_before_month.
    cbn [year month day]. unfold MINYEAR in *.
    split; [| lia].
    repeat (apply andb_true_iff; split); try assumption; lia.
Qed.

(** Adding a [timedelta] moves the wall clock by its length, as long as
    the day stays within the calendar. *)
Lemma add_spec d delta :
  let days := (wall_clock d + delta) / 86400000000 in
  if (0 <? days) && (days <=? _MAXORDINAL)
  then exists u,
      add d delta = inr u /\
      valid_date (on u) = true /\
      valid_time (hour u) (minute u) (second u) (microsecond u) = true /\
      tzinfo u = tzinfo d /\
      wall_clock u = wall_clock d + delta
  else add d delta = inl OverflowError.
Proof.
  unfold add. cbv zeta.
  set (total := wall_clock d + delta).
  destruct ((0 <? total / 86400000000) && (total / 86400000000 <=? _MAXORDINAL))
    eqn:E; [| reflexivity].
  apply andb_true_iff in E. destruct E as [E1 E2].
  apply Z.ltb_lt in E1. apply Z.leb_le in E2.
  destruct (ord2ymd_spec (total / 86400000000) ltac:(lia)) as [Hv Ho].
  eexists. split; [reflexivity |].
  unfold wall_clock at 1. cbn [on hour minute second microsecond tzinfo].
  rewrite Ho.
  split; [exact Hv |]. split; [| split; [reflexivity |]].
  - unfold valid_time. repeat (apply andb_true_iff; split);
      first [apply Z.leb_le | apply Z.ltb_lt]; divmod.
  - divmod.
Qed.

Lemma astimezone_UTC_spec d tz :
  tzinfo d = Some tz ->
  valid_datetime d = true ->
  match astimezone_UTC d tz with
  | inr utc => same_instant_in_UTC d tz utc
  | inl e => e = OverflowError /\ ~ (1 <= utc_day d tz <= _MAXORDINAL)
  end.
Proof.
  intros Htz Hv. destruct tz as [| off]; cbn [astimezone_UTC].
  - unfold same_instant_in_UTC. cbn [utcoffset]. repeat split; try assumption. lia.
  - pose proof (add_spec d (- off)) as H. cbv zeta in H.
    unfold utc_day. cbn [utcoffset].
    replace (wall_clock d - off) with (wall_clock d + - off) by lia.
    destruct ((0 <? (wall_clock d + - off) / 86400000000)
              && ((wall_clock d + - off) / 86400000000 <=? _MAXORDINAL)) eqn:E.
    + destruct H as [u [-> [Hd [Ht [_ Hw]]]]].
      unfold same_instant_in_UTC, valid_datetime, replace_tzinfo, wall_clock in *.
      cbn [on hour minute second microsecond tzinfo valid_tz].
      rewrite Hd, Ht. repeat split. exact Hw.
    + rewrite H. split; [reflexivity |].
      apply andb_false_iff in E. destruct E as [E | E];
        [apply Z.ltb_ge in E | apply Z.leb_gt in E]; lia.
Qed.

(** ** Two dates on the same day are the same date *)









End CalendarFacts.

(* ================================================================== *)
(** * Strings of the form [yyyy-mm-dd] *)
(* ================================================================== *)

Module FormFacts.
Import Datetime.
Import Form.

Lemma is_digit_cases c : is_digit c = true -> In c digits.
Proof.
  destruct c as [[] [] [] [] [] [] [] []]; vm_compute; intro H;
    first [discriminate H | tauto].
Qed.

Lemma map_flat_map {A B C} (g : B -> C) (f : A -> list B) l :
  map g (flat_map f l) = flat_map (fun x => map g (f x)) l.
Proof.
  induction l as [| x l IH]; simpl; [reflexivity |].
  rewrite map_app, IH. reflexivity.
Qed.

(** The year is carried through the rest of the match. *)
Lemma re_match_after_year (Y rest : string) :
  flat_map (fun '(_, s2) =>
  flat_map (fun '(m, s3) =>
  flat_map (fun '(_, s4) =>
  map (fun '(d, s5) => (Y, m, d, s5)) (re_d s4))
    (lit "-" s3)) (re_m s2)) (lit "-" rest)
  = map (fun '(m, d, s5) => (Y, m, d, s5)) (months_days rest).
Proof.
  unfold months_days.
  rewrite map_flat_map. apply flat_map_ext. intros [t2 s2].
  rewrite map_flat_map. apply flat_map_ext. intros [m s3].
  rewrite map_flat_map. apply flat_map_ext. intros [t4 s4].
  rewrite map_map. apply map_ext. intros [d s5]. reflexivity.
Qed.

Lemma re_Y_digits (y1 y2 y3 y4 : ascii) (rest : string) :
  is_digit y1 = true -> is_digit y2 = true ->
  is_digit y3 = true -> is_digit y4 = true ->
  re_Y (String y1 (String y2 (String y3 (String y4 rest))))
  = [(String y1 (String y2 (String y3 (String y4 ""))), rest)].
Proof.
  unfold is_digit. intros H1 H2 H3 H4.
  unfold re_Y, seq, digit, cls. rewrite H1. cbn [flat_map map app].
  rewrite H2. cbn [flat_map map app]. rewrite H3. cbn [flat_map map app].
  rewrite H4. reflexivity.
Qed.

Lemma two_digit_groups m1 m2 d1 d2 :
  In m1 digits -> In m2 digits -> In d1 digits -> In d2 digits ->
  two_digit_groups_ok m1 m2 d1 d2 = true.
Proof.
  assert (H : forallb (fun m1 => forallb (fun m2 => forallb (fun d1 =>
                forallb (fun d2 => two_digit_groups_ok m1 m2 d1 d2)
                  digits) digits) digits) digits = true)
    by (vm_compute; reflexivity).
  intros I1 I2 I3 I4.
  rewrite forallb_forall in H. specialize (H m1 I1).
  rewrite forallb_forall in H. specialize (H m2 I2).
  rewrite forallb_forall in H. specialize (H d1 I3).
  rewrite forallb_forall in H. exact (H d2 I4).
Qed.

Lemma days_in_month_le_31 y m : 1 <= m <= 12 -> _days_in_month y m <= 31.
Proof.
  intro H. unfold _days_in_month.
  assert (C : m = 1 \/ m = 2 \/ m = 3 \/ m = 4 \/ m = 5 \/ m = 6 \/
              m = 7 \/ m = 8 \/ m = 9 \/ m = 10 \/ m = 11 \/ m = 12) by lia.
  destruct C as [E | [E | [E | [E | [E | [E | [E | [E | [E | [E | [E | E]]]]]]]]]]];
    rewrite E; destruct (_is_leap y);
    cbn [_DAYS_IN_MONTH Z.eqb Pos.eqb andb]; lia.
Qed.

(** A string of the form [yyyy-mm-dd] that writes a date of the calendar is
    accepted by [strptime]. *)
Lemma strptime_accepts s :
  is_yyyy_mm_dd s = true ->
  valid_date (fields s) = true ->
  strptime_Ymd s = inr (mkDatetime (fields s) 0 0 0 0 None).
Proof.
  intro F.
  destruct s as [| y1 s]; [discriminate F |].
  destruct s as [| y2 s]; [discriminate F |].
  destruct s as [| y3 s]; [discriminate F |].
  destruct s as [| y4 s]; [discriminate F |].
  destruct s as [| h1 s]; [discriminate F |].
  destruct s as [| m1 s]; [discriminate F |].
  destruct s as [| m2 s]; [discriminate F |].
  destruct s as [| h2 s]; [discriminate F |].
  destruct s as [| d1 s]; [discriminate F |].
  destruct s as [| d2 s]; [discriminate F |].
  destruct s as [| c s]; [| discriminate F].
  cbn [is_yyyy_mm_dd] in F. repeat rewrite andb_true_iff in F.
  destruct F as [[[[[[[[[Y1 Y2] Y3] Y4] H1] M1] M2] H2] D1] D2].
  apply Ascii.eqb_eq in H1, H2. subst h1 h2.
  unfold fields. cbn [substring]. intro V.
  pose proof (two_digit_groups m1 m2 d1 d2
                (is_digit_cases _ M1) (is_digit_cases _ M2)
                (is_digit_cases _ D1) (is_digit_cases _ D2)) as G.
  unfold two_digit_groups_ok in G.
  assert (B : (1 <=? int (two m1 m2)) && (int (two m1 m2) <=? 12)
              && (1 <=? int (two d1 d2)) && (int (two d1 d2) <=? 31) = true).
  { unfold valid_date in V. cbn [year month day] in V.
    repeat rewrite andb_true_iff in V.
    destruct V as [[[[[_ _] V1] V2] V3] V4].
    unfold two. rewrite V1, V2, V3. cbn [andb]. apply Z.leb_le.
    apply Z.leb_le in V1, V2, V4.
    pose proof (days_in_month_le_31
                  (int (String y1 (String y2 (String y3 (String y4 "")))))
                  _ (conj V1 V2)).
    lia. }
  rewrite B in G. cbn [implb] in G.
  unfold strptime_Ymd, re_match.
  rewrite re_Y_digits by assumption.
  cbn [flat_map]. rewrite app_nil_r, re_match_after_year.
  unfold two in G. cbn [append] in G.
  destruct (months_days _) as [| [[m d] rest] l]; [discriminate G |].
  cbn [hd_error map] in *.
  repeat rewrite andb_true_iff in G. destruct G as [[Gm Gd] Gr].
  apply String.eqb_eq in Gm, Gd, Gr. subst m d rest.
  cbn [String.eqb negb]. rewrite V. reflexivity.
Qed.
End FormFacts.

(* ================================================================== *)
(** * Dates as they are written *)
(* ================================================================== *)

Module WrittenFacts.
Import Datetime.
Import Calendar.
Import Form.
Import Written.

Lemma year_written_spec y : 1 <= y <= 9999 -> year_written y = true.
Proof.
  intro H.
  assert (C : all_from 14 (fun y => (y <? 1) || (9999 <? y) || year_written y) 0
              = true) by (vm_compute; reflexivity).
  pose proof (CalendarFacts.all_from_spec 14 _ 0 C y) as Hf. cbv beta in Hf.
  assert (P : pow2 14 = 16384) by reflexivity.
  destruct (y <? 1) eqn:E1; [apply Z.ltb_lt in E1; lia |].
  destruct (9999 <? y) eqn:E2; [apply Z.ltb_lt in E2; lia |].
  apply Hf. lia.
Qed.

Lemma two_written_spec n : 1 <= n <= 31 -> two_written n = true.
Proof.
  intro H.
  assert (C : all_from 5 (fun n => (n <? 1) || (31 <? n) || two_written n) 0 = true)
    by (vm_compute; reflexivity).
  pose proof (CalendarFacts.all_from_spec 5 _ 0 C n) as Hf. cbv beta in Hf.
  assert (P : pow2 5 = 32) by reflexivity.
  destruct (n <? 1) eqn:E1; [apply Z.ltb_lt in E1; lia |].
  destruct (31 <? n) eqn:E2; [apply Z.ltb_lt in E2; lia |].
  apply Hf. lia.
Qed.

Lemma four_wide_spec y : 1000 <= y <= 9999 -> four_wide y = true.
Proof.
  intro H.
  assert (C : all_from 14 (fun y => (y <? 1000) || (9999 <? y) || four_wide y) 0
              = true) by (vm_compute; reflexivity).
  pose proof (CalendarFacts.all_from_spec 14 _ 0 C y) as Hf. cbv beta in Hf.
  assert (P : pow2 14 = 16384) by reflexivity.
  destruct (y <? 1000) eqn:E1; [apply Z.ltb_lt in E1; lia |].
  destruct (9999 <? y) eqn:E2; [apply Z.ltb_lt in E2; lia |].
  apply Hf. lia.
Qed.

(** A date of the calendar, written with the year zero filled, has the form
    [yyyy-mm-dd], and the string reads as the date. *)
Lemma strftime_spec d :
  valid_date d = true ->
  is_yyyy_mm_dd (strftime_Ymd true d) = true /\ fields (strftime_Ymd true d) = d.
Proof.
  intro V. pose proof V as V'. unfold valid_date in V'.
  repeat rewrite andb_true_iff in V'. repeat rewrite Z.leb_le in V'.
  destruct V' as [[[[[Y1 Y2] M1] M2] D1] D2].
  pose proof (FormFacts.days_in_month_le_31 (year d) (month d) (conj M1 M2)) as D3.
  unfold MINYEAR, MAXYEAR in *.
  pose proof (year_written_spec (year d) ltac:(lia)) as HY.
  pose proof (two_written_spec (month d) ltac:(lia)) as HM.
  pose proof (two_written_spec (day d) ltac:(lia)) as HD.
  unfold strftime_Ymd, year_written, two_written in *.
  destruct (zfill 4 (str_of_Z (year d))) as [| a [| b [| c [| e [| ? ?]]]]];
    try discriminate HY.
  destruct (zfill 2 (str_of_Z (month d))) as [| m1 [| m2 [| ? ?]]];
    try discriminate HM.
  destruct (zfill 2 (str_of_Z (day d))) as [| d1 [| d2 [| ? ?]]];
    try discriminate HD.
  repeat rewrite andb_true_iff in HY. repeat rewrite andb_true_iff in HM.
  repeat rewrite andb_true_iff in HD.
  destruct HY as [[[[A B] C] E] IY]. destruct HM as [[Hm1 Hm2] IM].
  destruct HD as [[Hd1 Hd2] ID].
  apply Z.eqb_eq in IY, IM, ID.
  cbn [append is_yyyy_mm_dd]. unfold fields. cbn [substring].
  rewrite A, B, C, E, Hm1, Hm2, Hd1, Hd2, IY, IM, ID.
  split; [reflexivity | destruct d; reflexivity].
Qed.

(** From the year 1000 on, every platform writes the same string. *)
Lemma strftime_from_1000 padded d :
  valid_date d = true ->
  1000 <= year d ->
  strftime_Ymd padded d = strftime_Ymd true d.
Proof.
  intros V Y. destruct padded; [reflexivity |].
  unfold valid_date in V. repeat rewrite andb_true_iff in V.
  destruct V as [[[[[_ Y2] _] _] _] _]. apply Z.leb_le in Y2.
  unfold MAXYEAR in Y2.
  pose proof (four_wide_spec (year d) (conj Y Y2)) as W.
  unfold four_wide in W. apply String.eqb_eq in W.
  unfold strftime_Ymd. rewrite W. reflexivity.
Qed.


End WrittenFacts.

(* ================================================================== *)
(** * Date coercion *)
(* ================================================================== *)

Section Coercion.
Import Datetime.
Import Calendar.
Import Form.
Variable padded : bool.

(** A string that comes back from [_to_date] is the string that went in. *)
Lemma to_date_str_unchanged s r :
  Current._to_date padded (Current.a_str s) = inr r -> r = s.
Proof.
  cbn [Current._to_date]. destruct (strptime_Ymd s); intro H; inversion H.
  reflexivity.
Qed.

(** A string is refused with [ValueError] and nothing else. *)
Lemma to_date_str_error s e :
  Current._to_date padded (Current.a_str s) = inl e -> e = ValueError.
Proof.
  cbn [Current._to_date]. unfold strptime_Ymd.
  destruct (re_match s) as [[[[Y m] d] rest] |].
  - destruct (negb (rest =? "")%string); [intro H; inversion H; reflexivity |].
    destruct (valid_date _); intro H; inversion H; reflexivity.
  - intro H; inversion H; reflexivity.
Qed.

(** A string that matches [yyyy-mm-dd] passes unchanged. *)
Lemma to_date_str_matching s :
  matches_yyyy_mm_dd s = true ->
  Current._to_date padded (Current.a_str s) = inr s.
Proof.
  unfold matches_yyyy_mm_dd. rewrite andb_true_iff. intros [F V].
  cbn [Current._to_date]. rewrite (FormFacts.strptime_accepts s F V).
  reflexivity.
Qed.

(** The two strings of the specification. *)
Lemma to_date_str_examples :
  Current._to_date padded (Current.a_str "2020-01-15") = inr "2020-01-15" /\
  Current._to_date padded (Current.a_str "15-01-2020") = inl ValueError.
Proof. split; reflexivity. Qed.

(** Strings of the form [yyyy-mm-dd] that write no date are refused. *)
Lemma to_date_str_not_a_date :
  Current._to_date padded (Current.a_str "2020-02-30") = inl ValueError /\
  Current._to_date padded (Current.a_str "2020-13-01") = inl ValueError /\
  Current._to_date padded (Current.a_str "0000-01-01") = inl ValueError.
Proof. repeat split; reflexivity. Qed.

(** A date and a naive datetime are formatted as they are. *)
Lemma to_date_naive d :
  Current._to_date padded (Current.a_date (on d)) = inr (strftime_Ymd padded (on d)) /\
  (tzinfo d = None ->
   Current._to_date padded (Current.a_datetime d) = inr (strftime_Ymd padded (on d))).
Proof.
  split; [reflexivity |]. intro H. cbn [Current._to_date]. rewrite H. reflexivity.
Qed.

(** C2, at the input where the code departs from it: ["2020-1-5"] does not
    match [yyyy-mm-dd] (it has not even the form), yet [strptime] accepts a
    month and a day of one digit, and [_to_date] returns the string as it
    is instead of raising [ValueError]. *)
Theorem C2_one_digit_month_and_day_pass_unchanged :
  is_yyyy_mm_dd "2020-1-5" = false /\
  matches_yyyy_mm_dd "2020-1-5" = false /\
  Current._to_date padded (Current.a_str "2020-1-5") = inr "2020-1-5".
Proof. repeat split; reflexivity. Qed.


(** Below the year 1000 the platforms differ: the year is written as it is
    where [strftime] does not fill it, and with four digits where it does. *)
Lemma to_date_below_1000 :
  valid_datetime early_year = true /\
  Current._to_date false (Current.a_datetime early_year) = inr "500-02-28" /\
  Current._to_date true (Current.a_datetime early_year) = inr "0500-02-28".
Proof. repeat split; vm_compute; reflexivity. Qed.

End Coercion.


(* ================================================================== *)
(** * Further properties of the operations *)
(* ================================================================== *)

Create HintDb quiet.

Section Quiet.
Context {A B : Type}.

Lemma quiet_ret (a : A) : quiet (ret a).
Proof. intro st; reflexivity. Qed.

Lemma quiet_raise (e : exn) : quiet (@raise A e).
Proof. intro st; reflexivity. Qed.

Lemma quiet_lift (r : result A) : quiet (lift r).
Proof. intro st; reflexivity. Qed.

Lemma quiet_bind (m : M A) (k : A -> M B) :
  quiet m -> (forall a, quiet (k a)) -> quiet (bind m k).
Proof.
  intros Hm Hk st. unfold bind. specialize (Hm st).
  destruct (m st) as [[e | a] st']; simpl in *; subst st'.
  - reflexivity.
  - apply Hk.
Qed.

(** What follows a computation quietly leaves its state. *)
Lemma snd_bind_quiet (m : M A) (k : A -> M B) st :
  (forall a, quiet (k a)) -> snd (bind m k st) = snd (m st).
Proof.
  intro Hk. unfold bind. destruct (m st) as [[e | a] st']; simpl.
  - reflexivity.
  - apply Hk.
Qed.

(** An exception of the first part is the exception of the whole. *)
Lemma bind_raises (m : M A) (k : A -> M B) st e st' :
  m st = (inl e, st') -> bind m k st = (inl e, st').
Proof. intro H. unfold bind. rewrite H. reflexivity. Qed.
End Quiet.

#[global] Hint Resolve quiet_ret quiet_raise quiet_lift : quiet.

Ltac quiet :=
  repeat first
    [ apply quiet_bind; [ | intro ]
    | solve [ auto with quiet ] ].

Section Further.
Variable net : transport.
Variable padded : bool.
Variable parse : pyval -> result Datetime.datetime.

Lemma quiet_for_device device_id devices :
  quiet (Current.for_device parse device_id devices).
Proof.
  induction devices as [| device rest IH]; simpl.
  - auto with quiet.
  - apply quiet_bind; [auto with quiet | intro id].
    destruct (eq_int id device_id); [quiet | exact IH].
Qed.

(** ** What goes on the wire *)

Lemma legacy_get_contracts_wire st :
  truthy (access_token (self st)) = true ->
  Legacy.get_contracts net st
  = outcome net st
      (mkRequest GET "https://api-portal.june.energy/contracts" []
         (bearer (access_token (self st))) []).
Proof.
  intro H. unfold Legacy.get_contracts. rewrite legacy_gate_open by exact H.
  unfold bind at 1, get_access_token at 1. rewrite exchange. reflexivity.
Qed.

Lemma get_contracts_wire st :
  truthy (access_token (self st)) = true ->
  Current.get_contracts net st
  = outcome net st
      (mkRequest GET "https://api-portal.june.energy/contracts" []
         (bearer (access_token (self st))) []).
Proof.
  intro H. unfold Current.get_contracts. rewrite current_gate_open by exact H.
  unfold bind at 1, get_access_token at 1. rewrite exchange. reflexivity.
Qed.

Lemma legacy_get_devices_wire id st :
  truthy (access_token (self st)) = true ->
  Legacy.get_devices net id st
  = outcome net st
      (mkRequest GET ("https://api-portal.june.energy/devices/" ++ str_of_Z id) []
         (bearer (access_token (self st))) []).
Proof.
  intro H. unfold Legacy.get_devices. rewrite legacy_gate_open by exact H.
  unfold bind at 1, get_access_token at 1. rewrite exchange. reflexivity.
Qed.

Lemma get_devices_wire contract_id st :
  truthy (access_token (self st)) = true ->
  Current.get_devices net contract_id st
  = outcome net st
      (mkRequest GET
         ("https://api-portal.june.energy/contracts/" ++ str_of_Z contract_id
          ++ "/devices") []
         (bearer (access_token (self st))) []).
Proof.
  intro H. unfold Current.get_devices. rewrite current_gate_open by exact H.
  unfold bind at 1, get_access_token at 1. rewrite exchange. reflexivity.
Qed.

Lemma get_measurements_wire device_id period start end_ s e st :
  truthy (access_token (self st)) = true ->
  Current._to_date padded start = inr s ->
  Current._to_date padded end_ = inr e ->
  Current.get_measurements net padded device_id period start end_ st
  = outcome net st
      (mkRequest GET
         ("https://api-portal.june.energy/devices/" ++ str_of_Z device_id
          ++ "/measures")
         [("filter[period]", PyInt period);
          ("filter[start]", PyStr s);
          ("filter[end]", PyStr e)]
         (bearer (access_token (self st))) []).
Proof.
  intros H Hs He. unfold Current.get_measurements.
  rewrite current_gate_open by exact H.
  unfold bind at 1, lift at 1. rewrite Hs.
  unfold bind at 1, lift at 1. rewrite He.
  unfold bind at 1, get_access_token at 1. rewrite exchange. reflexivity.
Qed.

(** With an open gate, each fetching operation is one exchange. *)
Lemma every_fetch_open st (P : M pyval -> Prop) :
  truthy (access_token (self st)) = true ->
  (forall (op : M pyval) rq,
      op st = outcome net st rq ->
      req_method rq = GET ->
      req_headers rq = bearer (access_token (self st)) ->
      P op) ->
  every_fetch net padded P.
Proof.
  intros H HP. unfold every_fetch. repeat split; intros.
  - eapply HP; [apply legacy_get_contracts_wire, H | reflexivity | reflexivity].
  - eapply HP; [apply legacy_get_devices_wire, H | reflexivity | reflexivity].
  - eapply HP; [apply get_contracts_wire, H | reflexivity | reflexivity].
  - eapply HP; [apply get_devices_wire, H | reflexivity | reflexivity].
  - eapply HP; [eapply get_measurements_wire; eassumption | reflexivity | reflexivity].
Qed.

Lemma truthy_string t : t <> "" -> truthy (PyStr t) = true.
Proof.
  intro H. cbn [truthy]. apply negb_true_iff. apply String.eqb_neq. exact H.
Qed.

Ltac run_authenticate username password :=
  unfold Current.authenticate, Legacy.authenticate;
  unfold bind, send, raise_for_status, json, lift, set_access_token, raise, ret;
  change (mkRequest POST (URL ++ "oauth/token") [] []
            [("grant_type", "password"); ("username", username);
             ("password", password)])
    with (auth_request username password).

Lemma authenticate_sends st username password :
  sent (snd (Current.authenticate net username password st))
  = (sent st ++ [auth_request username password])%list /\
  sent (snd (Legacy.authenticate net username password st))
  = (sent st ++ [auth_request username password])%list.
Proof.
  split.
  - run_authenticate username password.
    destruct (net (sent st) (auth_request username password)) as [e | r];
      [reflexivity |].
    destruct (is_error r); [reflexivity |].
    destruct (json_body r) as [j |]; [| reflexivity].
    destruct (getitem j "access_token"); reflexivity.
  - run_authenticate username password.
    destruct (net (sent st) (auth_request username password)) as [e | r];
      [reflexivity |].
    destruct (is_error r); [reflexivity |].
    destruct (json_body r) as [j |]; [| reflexivity].
    destruct (getitem j "access_token"); reflexivity.
Qed.

Lemma authenticate_succeeds st username password r j tok :
  net (sent st) (auth_request username password) = inr r ->
  is_error r = false ->
  json_body r = Some j ->
  getitem j "access_token" = inr tok ->
  Current.authenticate net username password st
  = (inr tt, mkState (mkJune tok) (sent st ++ [auth_request username password])) /\
  Legacy.authenticate net username password st
  = (inr tt, mkState (mkJune tok) (sent st ++ [auth_request username password])).
Proof.
  intros Hnet Herr Hbody Htok. split.
  - run_authenticate username password.
    rewrite Hnet, Herr, Hbody, Htok. reflexivity.
  - run_authenticate username password.
    rewrite Hnet, Herr, Hbody, Htok. reflexivity.
Qed.

(** What [authenticate] raises, by what came back. *)
Lemma authenticate_fails_with st username password :
  let rq := auth_request username password in
  let late (e : exn) : result unit * state :=
    (inl e, mkState (self st) (sent st ++ [rq])) in
  let both (x : result unit * state) :=
    Current.authenticate net username password st = x /\
    Legacy.authenticate net username password st = x in
  (forall e, net (sent st) rq = inl e -> both (late e)) /\
  (forall r, net (sent st) rq = inr r -> is_error r = true ->
             both (late (HTTPError r))) /\
  (forall r, net (sent st) rq = inr r -> is_error r = false ->
             json_body r = None -> both (late JSONDecodeError)) /\
  (forall r j e, net (sent st) rq = inr r -> is_error r = false ->
                 json_body r = Some j -> getitem j "access_token" = inl e ->
                 both (late e)).
Proof.
  cbv zeta. repeat split; intros;
    run_authenticate username password;
    repeat match goal with
           | H : _ = _ |- _ => rewrite H
           end; reflexivity.
Qed.

(** X1: [authenticate] has no gate: in every state, with a token or
    without, it posts the password grant to the token endpoint, once and
    whatever comes back; and when the response has no error status and its
    JSON body has an [access_token], that value replaces the stored token
    and nothing is returned. *)
Theorem X1_authenticate_posts_the_grant_and_stores_the_token st username password :
  sent (snd (Current.authenticate net username password st))
  = (sent st ++ [auth_request username password])%list /\
  sent (snd (Legacy.authenticate net username password st))
  = (sent st ++ [auth_request username password])%list /\
  (forall r j tok,
      net (sent st) (auth_request username password) = inr r ->
      is_error r = false ->
      json_body r = Some j ->
      getitem j "access_token" = inr tok ->
      Current.authenticate net username password st
      = (inr tt, mkState (mkJune tok) (sent st ++ [auth_request username password])) /\
      Legacy.authenticate net username password st
      = (inr tt, mkState (mkJune tok) (sent st ++ [auth_request username password]))).
Proof.
  destruct (authenticate_sends st username password) as [H1 H2].
  split; [exact H1 | split; [exact H2 |]].
  intros r j tok. apply authenticate_succeeds.
Qed.

(** X2: with a stored token that is a string [t], not empty, each fetching
    operation is one exchange of one [GET] whose [Authorization] header is
    ["Bearer "] followed by [t] as it is: [contracts] for [get_contracts],
    [devices/<id>] for the legacy [get_devices], [contracts/<id>/devices]
    for the current one, and [devices/<id>/measures] with the period and the
    two coerced dates as query parameters for [get_measurements]. *)
Theorem X2_the_token_goes_as_it_is_into_the_header st t :
  access_token (self st) = PyStr t ->
  t <> "" ->
  Legacy.get_contracts net st
  = outcome net st
      (mkRequest GET "https://api-portal.june.energy/contracts" []
         (authorization t) []) /\
  Current.get_contracts net st
  = outcome net st
      (mkRequest GET "https://api-portal.june.energy/contracts" []
         (authorization t) []) /\
  (forall id,
      Legacy.get_devices net id st
      = outcome net st
          (mkRequest GET ("https://api-portal.june.energy/devices/" ++ str_of_Z id)
             [] (authorization t) [])) /\
  (forall contract_id,
      Current.get_devices net contract_id st
      = outcome net st
          (mkRequest GET
             ("https://api-portal.june.energy/contracts/" ++ str_of_Z contract_id
              ++ "/devices") [] (authorization t) [])) /\
  (forall device_id period start end_ s e,
      Current._to_date padded start = inr s ->
      Current._to_date padded end_ = inr e ->
      Current.get_measurements net padded device_id period start end_ st
      = outcome net st
          (mkRequest GET
             ("https://api-portal.june.energy/devices/" ++ str_of_Z device_id
              ++ "/measures")
             [("filter[period]", PyInt period);
              ("filter[start]", PyStr s);
              ("filter[end]", PyStr e)]
             (authorization t) [])).
Proof.
  intros Htok Ht.
  assert (H : truthy (access_token (self st)) = true)
    by (rewrite Htok; apply truthy_string, Ht).
  assert (B : bearer (access_token (self st)) = authorization t)
    by (rewrite Htok; reflexivity).
  rewrite <- B. repeat split; intros.
  - apply legacy_get_contracts_wire, H.
  - apply get_contracts_wire, H.
  - apply legacy_get_devices_wire, H.
  - apply get_devices_wire, H.
  - apply get_measurements_wire; assumption.
Qed.

(** X3: logging in and fetching compose.  From any state, when the token
    endpoint answers with a JSON body whose [access_token] is a string [t],
    not empty, [authenticate] followed by [get_contracts] is the exchange
    of the contracts request under ["Bearer " ++ t], made after the
    password grant. *)
Theorem X3_login_then_get_contracts st username password r j t :
  net (sent st) (auth_request username password) = inr r ->
  is_error r = false ->
  json_body r = Some j ->
  getitem j "access_token" = inr (PyStr t) ->
  t <> "" ->
  let logged_in :=
    mkState (mkJune (PyStr t)) (sent st ++ [auth_request username password]) in
  let contracts :=
    mkRequest GET "https://api-portal.june.energy/contracts" [] (authorization t) [] in
  bind (Current.authenticate net username password)
       (fun _ => Current.get_contracts net) st
  = outcome net logged_in contracts /\
  bind (Legacy.authenticate net username password)
       (fun _ => Legacy.get_contracts net) st
  = outcome net logged_in contracts.
Proof.
  intros Hnet Herr Hbody Htok Ht logged_in contracts.
  destruct (authenticate_succeeds st username password r j (PyStr t)
              Hnet Herr Hbody Htok) as [Hc Hl].
  assert (H : truthy (access_token (self logged_in)) = true)
    by (apply truthy_string, Ht).
  split; unfold bind at 1.
  - rewrite Hc. exact (get_contracts_wire logged_in H).
  - rewrite Hl. exact (legacy_get_contracts_wire logged_in H).
Qed.

(** X4: [authenticate] stores what the server sent, whatever it is.  When
    the [access_token] of the response is falsy (an empty string, [null],
    0), [authenticate] returns as on success, and the operation that follows
    is stopped by the gate: it raises [NotAuthenticatedError] and sends
    nothing after the password grant. *)
Theorem X4_a_falsy_token_from_the_server_keeps_the_gate_closed
    st username password r j tok :
  net (sent st) (auth_request username password) = inr r ->
  is_error r = false ->
  json_body r = Some j ->
  getitem j "access_token" = inr tok ->
  truthy tok = false ->
  let after := mkState (mkJune tok) (sent st ++ [auth_request username password]) in
  Current.authenticate net username password st = (inr tt, after) /\
  Legacy.authenticate net username password st = (inr tt, after) /\
  bind (Current.authenticate net username password)
       (fun _ => Current.get_contracts net) st = (unauthenticated, after) /\
  bind (Legacy.authenticate net username password)
       (fun _ => Legacy.get_contracts net) st = (unauthenticated, after).
Proof.
  intros Hnet Herr Hbody Htok Hfalsy after.
  destruct (authenticate_succeeds st username password r j tok
              Hnet Herr Hbody Htok) as [Hc Hl].
  repeat split; try assumption; unfold bind at 1.
  - rewrite Hc. unfold Current.get_contracts.
    apply current_gate_closed. exact Hfalsy.
  - rewrite Hl. unfold Legacy.get_contracts.
    apply legacy_gate_closed. exact Hfalsy.
Qed.

(** X5: [get_measurements] coerces its dates after the gate and before the
    request, [start] first.  With a truthy token, a [start] that [_to_date]
    refuses raises that exception and nothing is sent, whatever [end] is; so
    does an [end] that is refused after a [start] that is accepted.  For a
    string the exception is [ValueError]. *)
Theorem X5_a_refused_date_stops_get_measurements_before_the_request
    st device_id period start end_ :
  truthy (access_token (self st)) = true ->
  (forall e,
      Current._to_date padded start = inl e ->
      Current.get_measurements net padded device_id period start end_ st = (inl e, st)) /\
  (forall s e,
      Current._to_date padded start = inr s ->
      Current._to_date padded end_ = inl e ->
      Current.get_measurements net padded device_id period start end_ st = (inl e, st)) /\
  (forall text,
      Current._to_date padded (Current.a_str text) <> inr text ->
      Current.get_measurements net padded device_id period (Current.a_str text) end_ st
      = (inl ValueError, st)).
Proof.
  intro H.
  assert (E : forall start e,
             Current._to_date padded start = inl e ->
             Current.get_measurements net padded device_id period start end_ st
             = (inl e, st)).
  { intros start0 e He. unfold Current.get_measurements.
    rewrite current_gate_open by exact H.
    unfold bind at 1, lift at 1. rewrite He. reflexivity. }
  split; [exact (E start) | split].
  - intros s e Hs He. unfold Current.get_measurements.
    rewrite current_gate_open by exact H.
    unfold bind at 1, lift at 1. rewrite Hs.
    unfold bind at 1, lift at 1. rewrite He. reflexivity.
  - intros text Hno.
    destruct (Current._to_date padded (Current.a_str text)) as [e | s] eqn:D.
    + apply E. rewrite D, (to_date_str_error padded text e D). reflexivity.
    + exfalso. apply Hno. rewrite (to_date_str_unchanged padded text s D). reflexivity.
Qed.

(** ** Failures *)

Lemma outcome_transport_failure st rq e :
  net (sent st) rq = inl e ->
  outcome net st rq = (inl e, mkState (self st) (sent st ++ [rq])).
Proof. intro H. unfold outcome. rewrite H. reflexivity. Qed.

Lemma outcome_not_json st rq r :
  net (sent st) rq = inr r ->
  is_error r = false ->
  json_body r = None ->
  outcome net st rq = (inl JSONDecodeError, mkState (self st) (sent st ++ [rq])).
Proof. intros H E B. unfold outcome. rewrite H, E, B. reflexivity. Qed.

(** X6: what the fetching operations let through.  With a truthy token,
    when the transport itself fails with an exception, each of them raises
    that exception after its one request: there is no second attempt.  When
    a response comes without an error status but its body is not JSON, each
    of them raises [JSONDecodeError]. *)
Theorem X6_transport_failures_and_bad_bodies_surface st :
  truthy (access_token (self st)) = true ->
  (forall e,
      (forall rq, net (sent st) rq = inl e) ->
      every_fetch net padded
        (fun op => fst (op st) = inl e /\ one_request op st)) /\
  (forall r,
      (forall rq, net (sent st) rq = inr r) ->
      is_error r = false ->
      json_body r = None ->
      every_fetch net padded
        (fun op => fst (op st) = inl JSONDecodeError /\ one_request op st)).
Proof.
  intro H. split.
  - intros e Hnet. apply (every_fetch_open st); [exact H |].
    intros op rq Hop _ _. unfold one_request.
    rewrite Hop, (outcome_transport_failure st rq e (Hnet rq)). simpl. eauto.
  - intros r Hnet Herr Hbody. apply (every_fetch_open st); [exact H |].
    intros op rq Hop _ _. unfold one_request.
    rewrite Hop, (outcome_not_json st rq r (Hnet rq) Herr Hbody). simpl. eauto.
Qed.

(** X7: how [authenticate] fails.  A failure of the transport is raised as
    it is; a body that is not JSON raises [JSONDecodeError]; a JSON object
    without [access_token] raises [KeyError]; a JSON value that is no object
    raises [TypeError].  Each time one request has been sent and the client
    is as it was. *)
Theorem X7_how_authenticate_fails st username password :
  let rq := auth_request username password in
  let late (e : exn) : result unit * state :=
    (inl e, mkState (self st) (sent st ++ [rq])) in
  let both (x : result unit * state) :=
    Current.authenticate net username password st = x /\
    Legacy.authenticate net username password st = x in
  (forall e, net (sent st) rq = inl e -> both (late e)) /\
  (forall r, net (sent st) rq = inr r -> is_error r = false ->
             json_body r = None -> both (late JSONDecodeError)) /\
  (forall r d, net (sent st) rq = inr r -> is_error r = false ->
               json_body r = Some (PyDict d) -> lookup "access_token" d = None ->
               both (late (KeyError "access_token"))) /\
  (forall r j, net (sent st) rq = inr r -> is_error r = false ->
               json_body r = Some j -> (forall d, j <> PyDict d) ->
               both (late TypeError)).
Proof.
  destruct (authenticate_fails_with st username password) as [F1 [_ [F3 F4]]].
  cbv zeta in *. split; [exact F1 | split; [exact F3 | split]].
  - intros r d Hnet Herr Hbody Hd.
    apply (F4 r (PyDict d)); try assumption.
    cbn [getitem]. rewrite Hd. reflexivity.
  - intros r j Hnet Herr Hbody Hj.
    apply (F4 r j); try assumption.
    destruct j; try reflexivity. exfalso. exact (Hj d eq_refl).
Qed.

(** ** One request at most *)

Lemma at_most_one_nothing {A} (op : M A) st :
  sent (snd (op st)) = sent st -> at_most_one_authorized_get op st.
Proof. intro H. left. exact H. Qed.

Lemma at_most_one_outcome (op : M pyval) st rq :
  truthy (access_token (self st)) = true ->
  op st = outcome net st rq ->
  req_method rq = GET ->
  req_headers rq = bearer (access_token (self st)) ->
  at_most_one_authorized_get op st.
Proof.
  intros H Hop Hm Hh. right. exists rq. rewrite Hop. simpl. auto.
Qed.

Lemma at_most_one_bind {A B} (m : M A) (k : A -> M B) st :
  (forall a, quiet (k a)) ->
  at_most_one_authorized_get m st ->
  at_most_one_authorized_get (bind m k) st.
Proof.
  intros Hk H. unfold at_most_one_authorized_get in *.
  rewrite (snd_bind_quiet m k st Hk). exact H.
Qed.

Lemma at_most_one_fetch st :
  at_most_one_authorized_get (Legacy.get_contracts net) st /\
  (forall id, at_most_one_authorized_get (Legacy.get_devices net id) st) /\
  at_most_one_authorized_get (Current.get_contracts net) st /\
  (forall contract_id,
      at_most_one_authorized_get (Current.get_devices net contract_id) st) /\
  (forall device_id period start end_,
      at_most_one_authorized_get
        (Current.get_measurements net padded device_id period start end_) st).
Proof.
  destruct (truthy (access_token (self st))) eqn:H.
  - repeat split; intros.
    + eapply at_most_one_outcome;
        [exact H | apply legacy_get_contracts_wire, H | reflexivity | reflexivity].
    + eapply at_most_one_outcome;
        [exact H | apply legacy_get_devices_wire, H | reflexivity | reflexivity].
    + eapply at_most_one_outcome;
        [exact H | apply get_contracts_wire, H | reflexivity | reflexivity].
    + eapply at_most_one_outcome;
        [exact H | apply get_devices_wire, H | reflexivity | reflexivity].
    + destruct (Current._to_date padded start) as [e1 | s] eqn:Ds.
      * apply at_most_one_nothing. unfold Current.get_measurements.
        rewrite current_gate_open by exact H.
        unfold bind at 1, lift at 1. rewrite Ds. reflexivity.
      * destruct (Current._to_date padded end_) as [e2 | e] eqn:De.
        -- apply at_most_one_nothing. unfold Current.get_measurements.
           rewrite current_gate_open by exact H.
           unfold bind at 1, lift at 1. rewrite Ds.
           unfold bind at 1, lift at 1. rewrite De. reflexivity.
        -- eapply at_most_one_outcome;
             [exact H | eapply get_measurements_wire; eassumption
              | reflexivity | reflexivity].
  - destruct (closed_gate_stops_everything net padded st H)
    as [G1 [G2 [G3 [G4 G5]]]].
    repeat split; intros; apply at_most_one_nothing.
    + rewrite G1. reflexivity.
    + rewrite G2. reflexivity.
    + rewrite G3. reflexivity.
    + rewrite G4. reflexivity.
    + rewrite G5. reflexivity.
Qed.

(** X8: no operation but [authenticate] sends more than one request, and a
    request is never sent without the token.  In every state and on every
    network, each fetching operation and each operation built on one
    ([get_ids], [get_id], [get_contract_ids], [get_start_end]) either sends
    nothing, or sends one [GET] with the bearer header of the stored token,
    which is then truthy. *)
Theorem X8_at_most_one_request_and_always_with_the_token st :
  at_most_one_authorized_get (Legacy.get_contracts net) st /\
  at_most_one_authorized_get (Legacy.get_ids net) st /\
  at_most_one_authorized_get (Legacy.get_id net) st /\
  (forall id, at_most_one_authorized_get (Legacy.get_devices net id) st) /\
  at_most_one_authorized_get (Current.get_contracts net) st /\
  at_most_one_authorized_get (Current.get_contract_ids net) st /\
  (forall contract_id,
      at_most_one_authorized_get (Current.get_devices net contract_id) st) /\
  (forall device_id period start end_,
      at_most_one_authorized_get
        (Current.get_measurements net padded device_id period start end_) st) /\
  (forall contract_id device_id,
      at_most_one_authorized_get
        (Current.get_start_end net parse contract_id device_id) st).
Proof.
  destruct (at_most_one_fetch st) as [F1 [F2 [F3 [F4 F5]]]].
  assert (I : at_most_one_authorized_get (Legacy.get_ids net) st).
  { unfold Legacy.get_ids. apply at_most_one_bind; [intro; quiet | exact F1]. }
  assert (J : at_most_one_authorized_get (Legacy.get_id net) st).
  { unfold Legacy.get_id. apply at_most_one_bind; [| exact I].
    intros [| x [| y l]]; auto with quiet. }
  assert (K : at_most_one_authorized_get (Current.get_contract_ids net) st).
  { unfold Current.get_contract_ids.
    apply at_most_one_bind; [intro; quiet | exact F3]. }
  assert (L : forall contract_id device_id,
             at_most_one_authorized_get
               (Current.get_start_end net parse contract_id device_id) st).
  { intros contract_id device_id.
    unfold Current.get_start_end. apply at_most_one_bind; [| apply F4].
    intro devices. pose proof (quiet_for_device device_id). quiet. }
  repeat split; assumption.
Qed.

(** X9: the two modules share [authenticate] and [get_contracts]: on every
    network and in every state each has the same result and leaves the same
    state, requests included, in the legacy module as in the current one. *)
Theorem X9_legacy_and_current_authenticate_and_get_contracts_agree
    st username password :
  Legacy.authenticate net username password st
  = Current.authenticate net username password st /\
  Legacy.get_contracts net st = Current.get_contracts net st.
Proof. split; reflexivity. Qed.

(** ** Ids and devices: what a result tells, and what goes wrong *)

Lemma comprehension_inv {A B} (f : A -> result B) l ys :
  comprehension f l = inr ys -> Forall2 (fun x y => f x = inr y) l ys.
Proof.
  revert ys. induction l as [| x l IH]; simpl; intros ys H.
  - inversion H. constructor.
  - destruct (f x) as [e | y] eqn:Fx; [discriminate H |].
    destruct (comprehension f l) as [e | ys'] eqn:C; [discriminate H |].
    inversion H. subst ys. constructor; [exact Fx | apply IH; reflexivity].
Qed.

(** The first element that fails stops a comprehension. *)
Lemma comprehension_fails {A B} (f : A -> result B) pre x post e :
  Forall (fun a => exists b, f a = inr b) pre ->
  f x = inl e ->
  comprehension f (pre ++ x :: post) = inl e.
Proof.
  intros Hpre Hx. induction Hpre as [| a pre [b Hb] _ IH]; simpl.
  - rewrite Hx. reflexivity.
  - rewrite Hb, IH. reflexivity.
Qed.

(** Only a list has elements with an [id]. *)
Lemma iter_with_ids data items ids :
  iter data = inr items ->
  Forall2 (fun entry id => getitem entry "id" = inr id) items ids ->
  data = PyList items \/ ids = [].
Proof.
  intros Hit Hids. destruct data; try discriminate Hit.
  - right. cbn [iter] in Hit. inversion Hit. subst items.
    destruct s; cbn [chars] in Hids; inversion Hids; [reflexivity |].
    discriminate.
  - left. cbn [iter] in Hit. inversion Hit. reflexivity.
  - right. cbn [iter] in Hit. inversion Hit. subst items.
    destruct d; cbn [map] in Hids; inversion Hids; [reflexivity |].
    discriminate.
Qed.

(** X10: a list that [get_contract_ids] or [get_ids] returns is read off the
    payload and nothing else: the payload of [get_contracts] has a [data]
    whose elements, in order and one for one, have the returned values as
    their [id].  No entry is skipped, none is added, and the list is as long
    as [data]. *)
Theorem X10_every_returned_id_is_the_id_of_its_entry st st' ids :
  Current.get_contract_ids net st = (inr ids, st') \/
  Legacy.get_ids net st = (inr ids, st') ->
  exists payload data items,
    Current.get_contracts net st = (inr payload, st') /\
    Legacy.get_contracts net st = (inr payload, st') /\
    getitem payload "data" = inr data /\
    iter data = inr items /\
    Forall2 (fun entry id => getitem entry "id" = inr id) items ids /\
    List.length ids = List.length items /\
    (data = PyList items \/ ids = []).
Proof.
  intro H.
  assert (H' : Current.get_contract_ids net st = (inr ids, st'))
    by (destruct H as [H | H]; exact H).
  clear H. revert H'.
  change (Legacy.get_contracts net st) with (Current.get_contracts net st).
  unfold Current.get_contract_ids, bind, lift.
  destruct (Current.get_contracts net st) as [[e | payload] st1]; [discriminate |].
  destruct (getitem payload "data") as [e | data] eqn:D; [discriminate |].
  destruct (iter data) as [e | items] eqn:I; [discriminate |].
  destruct (comprehension _ items) as [e | ys] eqn:C; [discriminate |].
  intro H. inversion H. subst ys st1.
  apply comprehension_inv in C.
  exists payload, data, items. repeat split; try assumption; try reflexivity.
  - symmetry. eapply Forall2_length. exact C.
  - eapply iter_with_ids; eassumption.
Qed.

(** X11: what goes wrong when ids are extracted.  After a [get_contracts]
    that returned, a payload that is a JSON object without [data] raises
    [KeyError]; a payload that is no object raises [TypeError]; and an entry
    of [data] whose [id] cannot be read raises the exception of that read,
    whatever the entries before and after it hold: there is no partial
    list.  The state is the one [get_contracts] left. *)
Theorem X11_id_extraction_fails_as_a_whole st st' payload :
  Current.get_contracts net st = (inr payload, st') ->
  let both (x : result (list pyval) * state) :=
    Current.get_contract_ids net st = x /\ Legacy.get_ids net st = x in
  (forall d, payload = PyDict d -> lookup "data" d = None ->
             both (inl (KeyError "data"), st')) /\
  ((forall d, payload <> PyDict d) -> both (inl TypeError, st')) /\
  (forall pre entry post e,
      getitem payload "data" = inr (PyList (pre ++ entry :: post)) ->
      Forall (fun entry => exists id, getitem entry "id" = inr id) pre ->
      getitem entry "id" = inl e ->
      both (inl e, st')).
Proof.
  intros Hget both. subst both. cbv beta.
  change (Legacy.get_ids net st) with (Current.get_contract_ids net st).
  assert (F : forall e, getitem payload "data" = inl e ->
                        Current.get_contract_ids net st = (inl e, st')).
  { intros e He. unfold Current.get_contract_ids, bind, lift.
    rewrite Hget, He. reflexivity. }
  split; [| split].
  - intros d -> Hd. split; apply F; cbn [getitem]; rewrite Hd; reflexivity.
  - intro Hno. split; apply F; destruct payload; try reflexivity;
      exfalso; exact (Hno d eq_refl).
  - intros pre entry post e Hdata Hpre Hentry.
    assert (G : Current.get_contract_ids net st = (inl e, st')).
    { unfold Current.get_contract_ids, bind, lift.
      rewrite Hget, Hdata. cbn [iter].
      rewrite (comprehension_fails _ pre entry post e Hpre Hentry). reflexivity. }
    split; exact G.
Qed.

Lemma for_device_none_inv device_id devices st st' :
  Current.for_device parse device_id devices st = (inr (None, None), st') ->
  Forall (other_device device_id) devices /\ st' = st.
Proof.
  induction devices as [| device rest IH]; simpl.
  - intro H. inversion H. split; [constructor | reflexivity].
  - unfold bind at 1, lift at 1.
    destruct (getitem device "id") as [e | id] eqn:Hid; [discriminate |].
    destruct (eq_int id device_id) eqn:Heq.
    + unfold bind, lift, ret.
      destruct (getitem device "attributes") as [e | a]; [discriminate |].
      destruct (getitem a "created_at") as [e | c]; [discriminate |].
      destruct (parse c); [discriminate |].
      destruct (getitem a "last_image_date") as [e | l]; [discriminate |].
      destruct (parse l); discriminate.
    + intro H. destruct (IH H) as [Hrest ->]. split; [| reflexivity].
      constructor; [| exact Hrest]. exists id. split; assumption.
Qed.

(** X12: the answer [(None, None)] of [get_start_end] means that the device
    is absent, and nothing else: when it is returned, [get_devices] had
    returned a payload with a [data] all of whose elements have an [id], and
    none of these ids equals the one looked for.  A device that is listed is
    never answered with [(None, None)], whatever its attributes. *)
Theorem X12_none_none_means_that_the_device_is_not_listed
    st st' contract_id device_id :
  Current.get_start_end net parse contract_id device_id st
  = (inr (None, None), st') ->
  exists payload data items,
    Current.get_devices net contract_id st = (inr payload, st') /\
    getitem payload "data" = inr data /\
    iter data = inr items /\
    Forall (other_device device_id) items.
Proof.
  unfold Current.get_start_end, bind at 1.
  destruct (Current.get_devices net contract_id st) as [[e | payload] st1];
    [discriminate |].
  unfold bind at 1, lift at 1.
  destruct (getitem payload "data") as [e | data] eqn:D; [discriminate |].
  unfold bind at 1, lift at 1.
  destruct (iter data) as [e | items] eqn:I; [discriminate |].
  intro H. apply for_device_none_inv in H. destruct H as [H ->].
  exists payload, data, items. repeat split; assumption.
Qed.

(** X13: [get_start_end] stops at the first thing it cannot read.  After a
    [get_devices] that returned a list, an entry whose [id] cannot be read
    raises the exception of that read when only other devices come before
    it, even if the device looked for comes later; and the first entry with
    the id, when it has no [attributes], or when these have no [created_at],
    raises the exception of that read instead of being skipped. *)
Theorem X13_get_start_end_fails_on_what_it_cannot_read
    st st' contract_id device_id payload pre entry post :
  Current.get_devices net contract_id st = (inr payload, st') ->
  getitem payload "data" = inr (PyList (pre ++ entry :: post)) ->
  Forall (other_device device_id) pre ->
  (forall e,
      getitem entry "id" = inl e ->
      Current.get_start_end net parse contract_id device_id st = (inl e, st')) /\
  (forall id e,
      getitem entry "id" = inr id -> eq_int id device_id = true ->
      getitem entry "attributes" = inl e ->
      Current.get_start_end net parse contract_id device_id st = (inl e, st')) /\
  (forall id attributes e,
      getitem entry "id" = inr id -> eq_int id device_id = true ->
      getitem entry "attributes" = inr attributes ->
      getitem attributes "created_at" = inl e ->
      Current.get_start_end net parse contract_id device_id st = (inl e, st')).
Proof.
  intros Hget Hdata Hpre.
  assert (S : Current.get_start_end net parse contract_id device_id st
              = Current.for_device parse device_id (entry :: post) st').
  { unfold Current.get_start_end, bind, lift. rewrite Hget, Hdata. cbn [iter].
    apply for_device_skip. exact Hpre. }
  rewrite S. cbn [Current.for_device]. unfold bind, lift.
  repeat split; intros;
    repeat match goal with
           | H : _ = _ |- _ => rewrite H
           end; reflexivity.
Qed.

Lemma for_device_some_inv device_id devices st st' a b :
  Current.for_device parse device_id devices st = (inr (a, b), st') ->
  (a = None /\ b = None) \/
  exists pre device post id attributes c l start end_,
    devices = (pre ++ device :: post)%list /\
    Forall (other_device device_id) pre /\
    getitem device "id" = inr id /\ eq_int id device_id = true /\
    getitem device "attributes" = inr attributes /\
    getitem attributes "created_at" = inr c /\
    getitem attributes "last_image_date" = inr l /\
    parse c = inr start /\ parse l = inr end_ /\
    a = Some start /\ b = Some end_.
Proof.
  induction devices as [| device rest IH]; simpl.
  - intro H. inversion H. left. split; reflexivity.
  - unfold bind at 1, lift at 1.
    destruct (getitem device "id") as [e | id] eqn:Hid; [discriminate |].
    destruct (eq_int id device_id) eqn:Heq.
    + unfold bind, lift, ret.
      destruct (getitem device "attributes") as [e | attributes] eqn:Ha;
        [discriminate |].
      destruct (getitem attributes "created_at") as [e | c] eqn:Hc; [discriminate |].
      destruct (parse c) as [e | start] eqn:Ps; [discriminate |].
      destruct (getitem attributes "last_image_date") as [e | l] eqn:Hl;
        [discriminate |].
      destruct (parse l) as [e | end_] eqn:Pe; [discriminate |].
      intro H. inversion H. right.
      exists [], device, rest, id, attributes, c, l, start, end_.
      repeat split; try assumption; try reflexivity. constructor.
    + intro H. destruct (IH H) as [N | F]; [left; exact N | right].
      destruct F as [pre [dev [post [id' [at' [c [l [s [e F]]]]]]]]].
      destruct F as [-> [Hpre F]].
      exists (device :: pre), dev, post, id', at', c, l, s, e.
      split; [reflexivity |]. split; [| exact F].
      constructor; [| exact Hpre]. exists id. split; assumption.
Qed.

(** X18: a pair of timestamps that [get_start_end] returns is read off the
    first listed device with the id.  The result is either [(None, None)]
    or a pair of two timestamps, never one without the other; and in the
    second case the payload of [get_devices] lists a device with the id,
    after devices with other ids only, whose [created_at] and
    [last_image_date] parse to the two timestamps returned. *)
Theorem X18_the_timestamps_are_those_of_the_first_device_with_the_id
    st st' contract_id device_id a b :
  Current.get_start_end net parse contract_id device_id st = (inr (a, b), st') ->
  (a = None /\ b = None) \/
  exists payload data pre device post id attributes c l start end_,
    Current.get_devices net contract_id st = (inr payload, st') /\
    getitem payload "data" = inr data /\
    iter data = inr (pre ++ device :: post)%list /\
    Forall (other_device device_id) pre /\
    getitem device "id" = inr id /\ eq_int id device_id = true /\
    getitem device "attributes" = inr attributes /\
    getitem attributes "created_at" = inr c /\
    getitem attributes "last_image_date" = inr l /\
    parse c = inr start /\ parse l = inr end_ /\
    a = Some start /\ b = Some end_.
Proof.
  unfold Current.get_start_end, bind at 1.
  destruct (Current.get_devices net contract_id st) as [[e | payload] st1];
    [discriminate |].
  unfold bind at 1, lift at 1.
  destruct (getitem payload "data") as [e | data] eqn:D; [discriminate |].
  unfold bind at 1, lift at 1.
  destruct (iter data) as [e | items] eqn:I; [discriminate |].
  intro H.
  assert (S : st' = st1).
  { pose proof (quiet_for_device device_id items st1) as Q.
    rewrite H in Q. exact Q. }
  subst st1.
  apply for_device_some_inv in H. destruct H as [N | F]; [left; exact N | right].
  destruct F as [pre [device [post [id [attributes [c [l [start [end_ F]]]]]]]]].
  destruct F as [-> F].
  exists payload, data, pre, device, post, id, attributes, c, l, start, end_.
  repeat split; try assumption; apply F.
Qed.

(** X19: an id that [get_id] returns is the id of the only contract: when
    [get_id] returns, [get_ids] had returned the list of that one id, so the
    [data] of the contracts payload has exactly one element, and its [id]
    is the value returned. *)
Theorem X19_get_id_returns_the_id_of_the_only_contract st st' id :
  Legacy.get_id net st = (inr id, st') ->
  Legacy.get_ids net st = (inr [id], st') /\
  exists payload data entry,
    Legacy.get_contracts net st = (inr payload, st') /\
    getitem payload "data" = inr data /\
    iter data = inr [entry] /\
    getitem entry "id" = inr id.
Proof.
  intro H.
  assert (G : Legacy.get_ids net st = (inr [id], st')).
  { revert H. unfold Legacy.get_id, bind at 1.
    destruct (Legacy.get_ids net st) as [[e | ids] st1]; [discriminate |].
    destruct ids as [| x [| y l]]; try discriminate.
    intro H. inversion H. reflexivity. }
  split; [exact G |]. revert G.
  unfold Legacy.get_ids, bind, lift.
  destruct (Legacy.get_contracts net st) as [[e | payload] st1]; [discriminate |].
  destruct (getitem payload "data") as [e | data] eqn:D; [discriminate |].
  destruct (iter data) as [e | items] eqn:I; [discriminate |].
  destruct (comprehension _ items) as [e | ys] eqn:C; [discriminate |].
  intro G. inversion G. subst ys st1.
  apply comprehension_inv in C. inversion C as [| entry y items' ys' Hid Hrest]. subst.
  inversion Hrest. subst.
  exists payload, data, entry. repeat split; assumption.
Qed.

End Further.

(* ================================================================== *)
(** * The table of measurements *)
(* ================================================================== *)

Section Tables.
Variable net : transport.
Variable padded : bool.
Variables frame column : Type.

Lemma dataframe_without_pandas device_id period start end_ st e :
  Current.get_measurements_dataframe net padded frame column (inl e)
    device_id period start end_ st = (inl e, st).
Proof. reflexivity. Qed.

Lemma dataframe_with_pandas device_id period start end_ st pd :
  Current.get_measurements_dataframe net padded frame column (inr pd)
    device_id period start end_ st
  = bind (Current.get_measurements net padded device_id period start end_)
      (fun measurements =>
         data <- lift (getitem measurements "data") ;;
         points <- lift (iter data) ;;
         datapoints <-
           lift (comprehension (fun point => getitem point "attributes") points) ;;
         lift (table_of pd datapoints)) st.
Proof.
  unfold Current.get_measurements_dataframe, bind at 1, lift at 1.
  unfold bind, lift, ret, table_of.
  destruct (Current.get_measurements net padded device_id period start end_ st)
    as [[e | measurements] st1]; [reflexivity |].
  destruct (getitem measurements "data") as [e | data]; [reflexivity |].
  destruct (iter data) as [e | points]; [reflexivity |].
  destruct (comprehension _ points) as [e | datapoints]; [reflexivity |].
  destruct (Current.from_records pd datapoints) as [e | df]; [reflexivity |].
  destruct (Current.get_column pd df "start") as [e | c]; [reflexivity |].
  destruct (Current.DatetimeIndex pd c) as [e | index]; [reflexivity |].
  destruct (Current.set_column pd df "start" index) as [e | df']; [reflexivity |].
  destruct (Current.set_index pd df' "start"); reflexivity.
Qed.

(** X14: [get_measurements_dataframe] is [get_measurements] followed by a
    reshaping.  Where [pandas] cannot be imported it raises at once, before
    the gate and with nothing sent.  Otherwise an exception of
    [get_measurements] (the gate, a date, the exchange) is raised as it is;
    a payload whose [data] points all have [attributes] gives the table that
    [pandas] builds from these attributes, in the order of [data]; and a
    point without [attributes] raises the exception of that read, with no
    table built from the points before it.  It never writes to the client
    and sends at most the request of [get_measurements]. *)
Theorem X14_the_dataframe_is_built_from_the_attributes_in_order
    (import_pandas : result (Current.pandas frame column))
    device_id period start end_ st :
  let dataframe :=
    Current.get_measurements_dataframe net padded frame column import_pandas
      device_id period start end_ in
  (forall e, import_pandas = inl e -> dataframe st = (inl e, st)) /\
  (forall pd, import_pandas = inr pd ->
     (forall e st',
         Current.get_measurements net padded device_id period start end_ st = (inl e, st') ->
         dataframe st = (inl e, st')) /\
     (forall payload st' points records,
         Current.get_measurements net padded device_id period start end_ st
         = (inr payload, st') ->
         getitem payload "data" = inr (PyList points) ->
         Forall2 (fun point a => getitem point "attributes" = inr a) points records ->
         dataframe st = (table_of pd records, st')) /\
     (forall payload st' pre point post e,
         Current.get_measurements net padded device_id period start end_ st
         = (inr payload, st') ->
         getitem payload "data" = inr (PyList (pre ++ point :: post)) ->
         Forall (fun point => exists a, getitem point "attributes" = inr a) pre ->
         getitem point "attributes" = inl e ->
         dataframe st = (inl e, st'))) /\
  self (snd (dataframe st)) = self st /\
  at_most_one_authorized_get dataframe st.
Proof.
  cbv zeta.
  split; [intros e ->; apply dataframe_without_pandas |].
  split.
  - intros pd ->. rewrite dataframe_with_pandas.
    split; [| split].
    + intros e st' H. apply bind_raises, H.
    + intros payload st' points records H Hdata Hrec.
      unfold bind, lift. rewrite H, Hdata. cbn [iter].
      assert (C : comprehension (fun point => getitem point "attributes") points
                  = inr records).
      { clear - Hrec. induction Hrec as [| p a ps rs Hp _ IH]; simpl.
        - reflexivity.
        - rewrite Hp, IH. reflexivity. }
      rewrite C. reflexivity.
    + intros payload st' pre point post e H Hdata Hpre Hpoint.
      unfold bind, lift. rewrite H, Hdata. cbn [iter].
      rewrite (comprehension_fails _ pre point post e Hpre Hpoint). reflexivity.
  - destruct import_pandas as [e | pd].
    + split; [reflexivity | left; reflexivity].
    + unfold at_most_one_authorized_get.
      rewrite dataframe_with_pandas.
      rewrite snd_bind_quiet by (intro; quiet).
      split; [apply keeps_get_measurements |].
      destruct (at_most_one_fetch net padded st) as [_ [_ [_ [_ F]]]].
      exact (F device_id period start end_).
Qed.
End Tables.

(* ================================================================== *)
(** * Further properties of the date coercion *)
(* ================================================================== *)

Module CoercionFacts.
Import Datetime.
Import Calendar.
Import Form.
Import Written.
Import WrittenFacts.

Section Platform.
Variable padded : bool.

(** X15: the string that [_to_date] makes of a date, or of a datetime
    without time zone, is one that [_to_date] accepts: for a date of the
    calendar from the year 1000 on (where every platform writes the year
    with four digits), the result has the form [yyyy-mm-dd], reads back as
    the same year, month and day, and passes through [_to_date] unchanged
    when given as a string. *)
Theorem X15_a_formatted_date_reads_back_and_passes_unchanged d :
  valid_date (on d) = true ->
  1000 <= year (on d) ->
  exists s,
    Current._to_date padded (Current.a_date (on d)) = inr s /\
    (tzinfo d = None -> Current._to_date padded (Current.a_datetime d) = inr s) /\
    is_yyyy_mm_dd s = true /\
    fields s = on d /\
    Current._to_date padded (Current.a_str s) = inr s.
Proof.
  intros V Y. destruct (strftime_spec (on d) V) as [F R].
  destruct (to_date_naive padded d) as [N1 N2].
  rewrite <- (strftime_from_1000 padded (on d) V Y) in F, R.
  exists (strftime_Ymd padded (on d)). repeat split; try assumption.
  apply to_date_str_matching. unfold matches_yyyy_mm_dd.
  rewrite F, R, V. reflexivity.
Qed.

(** ** How far the conversion to UTC moves the day *)

Lemma wall_clock_split d :
  wall_clock d = toordinal (on d) * 86400000000 + time_of_day d.
Proof. unfold wall_clock, time_of_day. lia. Qed.

Lemma time_of_day_bounds d :
  valid_datetime d = true -> 0 <= time_of_day d < 86400000000.
Proof.
  unfold valid_datetime, valid_time, time_of_day.
  repeat rewrite andb_true_iff. repeat rewrite Z.leb_le. repeat rewrite Z.ltb_lt.
  intros [[_ T] _]. lia.
Qed.

(** X16: for a datetime with a time zone, the day that [_to_date] writes,
    as the [strftime] of the platform writes it, is the day of the
    datetime, the day before or the day after, and the sign
    of the offset tells which: east of UTC (an offset of zero or more) it is
    never a later day, west of UTC never an earlier one. *)
Theorem X16_the_UTC_day_is_at_most_one_day_away d off s :
  tzinfo d = Some (tz_offset off) ->
  valid_datetime d = true ->
  Current._to_date padded (Current.a_datetime d) = inr s ->
  exists utc,
    s = strftime_Ymd padded (on utc) /\
    valid_date (on utc) = true /\
    toordinal (on d) - 1 <= toordinal (on utc) <= toordinal (on d) + 1 /\
    (0 <= off -> toordinal (on utc) <= toordinal (on d)) /\
    (off <= 0 -> toordinal (on d) <= toordinal (on utc)).
Proof.
  intros Htz V. pose proof (CalendarFacts.astimezone_UTC_spec d _ Htz V) as H.
  cbn [Current._to_date]. rewrite Htz.
  destruct (astimezone_UTC d (tz_offset off)) as [e | utc]; [discriminate |].
  intro E. inversion E. exists utc.
  destruct H as [Vu [_ W]]. cbn [utcoffset] in W.
  pose proof (time_of_day_bounds d V) as Td.
  pose proof (time_of_day_bounds utc Vu) as Tu.
  rewrite !wall_clock_split in W.
  assert (O : -86400000000 < off < 86400000000).
  { unfold valid_datetime in V. rewrite Htz in V. cbn [valid_tz] in V.
    repeat rewrite andb_true_iff in V. destruct V as [_ [O1 O2]].
    apply Z.ltb_lt in O1, O2. lia. }
  unfold valid_datetime in Vu. repeat rewrite andb_true_iff in Vu.
  destruct Vu as [[Vd _] _].
  repeat split; try assumption; lia.
Qed.

(** ** The strings that are accepted *)

Lemma cls_inv p s t s' :
  In (t, s') (cls p s) -> exists c, s = String c s' /\ t = String c "" /\ p c = true.
Proof.
  unfold cls. destruct s as [| c s0]; [intros [] |].
  destruct (p c) eqn:P; [| intros []].
  intros [H | []]. inversion H. subst. exists c. auto.
Qed.

Lemma seq_inv m1 m2 s t s' :
  In (t, s') (seq m1 m2 s) ->
  exists t1 s1 t2, In (t1, s1) (m1 s) /\ In (t2, s') (m2 s1) /\ t = t1 ++ t2.
Proof.
  unfold seq. rewrite in_flat_map. intros [[t1 s1] [H1 H2]].
  rewrite in_map_iff in H2. destruct H2 as [[t2 s2] [E H2]].
  inversion E. subst. exists t1, s1, t2. auto.
Qed.

Lemma alt_inv m1 m2 s x : In x (alt m1 m2 s) -> In x (m1 s) \/ In x (m2 s).
Proof. unfold alt. apply in_app_or. Qed.

(** A group of one character class, or of two in a row. *)
Lemma one_inv p s t s' :
  In (t, s') (cls p s) -> s = t ++ s' /\ String.length t = 1%nat.
Proof.
  intro H. apply cls_inv in H. destruct H as [c [-> [-> _]]]. split; reflexivity.
Qed.

Lemma two_inv p q s t s' :
  In (t, s') (seq (cls p) (cls q) s) -> s = t ++ s' /\ String.length t = 2%nat.
Proof.
  intro H. apply seq_inv in H. destruct H as [t1 [s1 [t2 [H1 [H2 ->]]]]].
  apply cls_inv in H1, H2.
  destruct H1 as [c1 [-> [-> _]]]. destruct H2 as [c2 [-> [-> _]]].
  split; reflexivity.
Qed.

Lemma re_m_inv s t s' :
  In (t, s') (re_m s) ->
  s = t ++ s' /\ (String.length t = 1%nat \/ String.length t = 2%nat).
Proof.
  unfold re_m, lit, range, digit. intro H.
  repeat (apply alt_inv in H; destruct H as [H | H]);
    first [ apply two_inv in H; destruct H as [-> L]; split; [reflexivity | right; exact L]
          | apply one_inv in H; destruct H as [-> L]; split; [reflexivity | left; exact L] ].
Qed.

Lemma re_d_inv s t s' :
  In (t, s') (re_d s) ->
  s = t ++ s' /\ (String.length t = 1%nat \/ String.length t = 2%nat).
Proof.
  unfold re_d, lit, range, digit. intro H.
  repeat (apply alt_inv in H; destruct H as [H | H]);
    first [ apply two_inv in H; destruct H as [-> L]; split; [reflexivity | right; exact L]
          | apply one_inv in H; destruct H as [-> L]; split; [reflexivity | left; exact L] ].
Qed.

Lemma re_Y_inv s t s' :
  In (t, s') (re_Y s) ->
  exists y1 y2 y3 y4,
    s = String y1 (String y2 (String y3 (String y4 s'))) /\
    t = String y1 (String y2 (String y3 (String y4 ""))) /\
    is_digit y1 = true /\ is_digit y2 = true /\
    is_digit y3 = true /\ is_digit y4 = true.
Proof.
  unfold re_Y, digit, is_digit. intro H.
  apply seq_inv in H. destruct H as [t1 [s1 [u1 [H1 [H ->]]]]].
  apply seq_inv in H. destruct H as [t2 [s2 [u2 [H2 [H ->]]]]].
  apply seq_inv in H. destruct H as [t3 [s3 [t4 [H3 [H4 ->]]]]].
  apply cls_inv in H1, H2, H3, H4.
  destruct H1 as [y1 [-> [-> D1]]]. destruct H2 as [y2 [-> [-> D2]]].
  destruct H3 as [y3 [-> [-> D3]]]. destruct H4 as [y4 [-> [-> D4]]].
  exists y1, y2, y3, y4. repeat split; assumption.
Qed.

Lemma lit_inv c s t s' : In (t, s') (lit c s) -> s = String c s'.
Proof.
  unfold lit. intro H. apply cls_inv in H. destruct H as [c' [-> [_ E]]].
  apply Ascii.eqb_eq in E. subst. reflexivity.
Qed.

Lemma re_match_inv s Y m d rest :
  re_match s = Some (Y, m, d, rest) ->
  exists y1 y2 y3 y4,
    Y = String y1 (String y2 (String y3 (String y4 ""))) /\
    is_digit y1 = true /\ is_digit y2 = true /\
    is_digit y3 = true /\ is_digit y4 = true /\
    s = Y ++ "-" ++ m ++ "-" ++ d ++ rest /\
    (String.length m = 1%nat \/ String.length m = 2%nat) /\
    (String.length d = 1%nat \/ String.length d = 2%nat).
Proof.
  unfold re_match. intro H.
  assert (I : In (Y, m, d, rest)
                (flat_map (fun '(Y, s1) =>
                 flat_map (fun '(_, s2) =>
                 flat_map (fun '(m, s3) =>
                 flat_map (fun '(_, s4) =>
                 map (fun '(d, s5) => (Y, m, d, s5)) (re_d s4))
                   (lit "-" s3)) (re_m s2)) (lit "-" s1)) (re_Y s))).
  { destruct (flat_map _ (re_Y s)) as [| x l]; [discriminate H |].
    inversion H. left. reflexivity. }
  clear H.
  apply in_flat_map in I. destruct I as [[Y0 s1] [HY I]].
  apply in_flat_map in I. destruct I as [[h1 s2] [H1 I]].
  apply in_flat_map in I. destruct I as [[m0 s3] [Hm I]].
  apply in_flat_map in I. destruct I as [[h2 s4] [H2 I]].
  apply in_map_iff in I. destruct I as [[d0 s5] [E Hd]].
  inversion E. subst Y0 m0 d0 s5.
  apply re_Y_inv in HY. destruct HY as [y1 [y2 [y3 [y4 [-> [-> D]]]]]].
  apply lit_inv in H1, H2. subst s1 s3.
  apply re_m_inv in Hm. destruct Hm as [-> Lm].
  apply re_d_inv in Hd. destruct Hd as [-> Ld].
  exists y1, y2, y3, y4.
  destruct D as [D1 [D2 [D3 D4]]].
  repeat split; assumption.
Qed.

(** X17: among the strings of characters with code points below 256 (the
    strings of this model, where the only decimal digits are [0] to [9]),
    one that [_to_date] accepts begins with the year.  It is four digits
    [0] to [9], a dash, a month of one or two characters, a dash and a day
    of one or two characters, and nothing more; and year, month and day are
    a date of the calendar.  So such a string whose first five characters
    are not four of these digits and a dash, such as a date written day
    first, is always refused.  Strings with the decimal digits of other
    scripts are outside this statement. *)
Theorem X17_an_accepted_string_begins_with_a_four_digit_year s r :
  Current._to_date padded (Current.a_str s) = inr r ->
  exists y1 y2 y3 y4 m d,
    let Y := String y1 (String y2 (String y3 (String y4 ""))) in
    s = Y ++ "-" ++ m ++ "-" ++ d /\
    is_digit y1 = true /\ is_digit y2 = true /\
    is_digit y3 = true /\ is_digit y4 = true /\
    (String.length m = 1%nat \/ String.length m = 2%nat) /\
    (String.length d = 1%nat \/ String.length d = 2%nat) /\
    valid_date (mkDate (int Y) (int m) (int d)) = true.
Proof.
  cbn [Current._to_date]. unfold strptime_Ymd.
  destruct (re_match s) as [[[[Y m] d] rest] |] eqn:R; [| discriminate].
  destruct (rest =? "")%string eqn:E; cbn [negb]; [| discriminate].
  destruct (valid_date _) eqn:V; [| discriminate].
  intros _. apply String.eqb_eq in E. subst rest.
  apply re_match_inv in R.
  destruct R as [y1 [y2 [y3 [y4 [-> [D1 [D2 [D3 [D4 [-> [Lm Ld]]]]]]]]]]].
  exists y1, y2, y3, y4, m, d. cbv zeta.
  repeat split; try assumption.
  cbn [append]. repeat f_equal.
  clear. induction d as [| c d IH]; [reflexivity | cbn [append]; rewrite IH; reflexivity].
Qed.

End Platform.

End CoercionFacts.

(* ================================================================== *)
(** * The further properties on concrete networks *)
(* ================================================================== *)

Lemma abc_not_empty : "abc" <> "".
Proof. discriminate. Defined.

Lemma X1_witness :
  Current.authenticate scripted "user" "secret" (fresh PyNone)
  = (inr tt, mkState (mkJune (PyStr "abc")) [auth_request "user" "secret"]).
Proof.
  destruct (X1_authenticate_posts_the_grant_and_stores_the_token
              scripted (fresh PyNone) "user" "secret") as [_ [_ H]].
  exact (proj1 (H (token_response (PyStr "abc")) _ (PyStr "abc")
                  eq_refl eq_refl eq_refl eq_refl)).
Defined.

Lemma X2_witness :
  Current.get_devices scripted 42 (fresh (PyStr "abc"))
  = outcome scripted (fresh (PyStr "abc"))
      (mkRequest GET "https://api-portal.june.energy/contracts/42/devices" []
         [("Authorization", "Bearer abc")] []).
Proof.
  destruct (X2_the_token_goes_as_it_is_into_the_header
              scripted false (fresh (PyStr "abc")) "abc" eq_refl abc_not_empty)
    as [_ [_ [_ [H _]]]].
  exact (H 42).
Defined.

Lemma X3_witness :
  bind (Current.authenticate scripted "user" "secret")
       (fun _ => Current.get_contracts scripted) (fresh PyNone)
  = (inr two_contracts,
     mkState (mkJune (PyStr "abc"))
       [auth_request "user" "secret";
        mkRequest GET "https://api-portal.june.energy/contracts" []
          [("Authorization", "Bearer abc")] []]).
Proof.
  destruct (X3_login_then_get_contracts scripted (fresh PyNone) "user" "secret"
              (token_response (PyStr "abc")) _ "abc"
              eq_refl eq_refl eq_refl eq_refl abc_not_empty) as [H _].
  rewrite H. reflexivity.
Defined.

Lemma X4_witness :
  let net := always (token_response (PyStr "")) in
  bind (Current.authenticate net "user" "secret")
       (fun _ => Current.get_contracts net) (fresh PyNone)
  = (unauthenticated, mkState (mkJune (PyStr "")) [auth_request "user" "secret"]).
Proof.
  intro net.
  destruct (X4_a_falsy_token_from_the_server_keeps_the_gate_closed
              net (fresh PyNone) "user" "secret"
              (token_response (PyStr "")) _ (PyStr "")
              eq_refl eq_refl eq_refl eq_refl eq_refl) as [_ [_ [H _]]].
  exact H.
Defined.

Lemma X5_witness :
  Current.get_measurements scripted false 12 0
    (Current.a_str "15-01-2020") (Current.a_str "2020-01-31") (fresh (PyStr "abc"))
  = (inl ValueError, fresh (PyStr "abc")).
Proof.
  destruct (X5_a_refused_date_stops_get_measurements_before_the_request
              scripted false (fresh (PyStr "abc")) 12 0
              (Current.a_str "15-01-2020") (Current.a_str "2020-01-31") eq_refl)
    as [H _].
  exact (H ValueError eq_refl).
Defined.

Lemma X6_witness :
  fst (Current.get_contracts (down RequestException) (fresh (PyStr "abc")))
  = inl RequestException.
Proof.
  destruct (X6_transport_failures_and_bad_bodies_surface
              (down RequestException) false (fresh (PyStr "abc")) eq_refl) as [H _].
  destruct (H RequestException (fun _ => eq_refl)) as [_ [_ [[G _] _]]].
  exact G.
Defined.

Lemma X7_witness :
  let net := always (mkResponse 200 (Some (PyDict [("error", PyStr "denied")]))) in
  Current.authenticate net "user" "secret" (fresh (PyStr "old"))
  = (inl (KeyError "access_token"),
     mkState (mkJune (PyStr "old")) [auth_request "user" "secret"]).
Proof.
  intro net.
  destruct (X7_how_authenticate_fails net (fresh (PyStr "old")) "user" "secret")
    as [_ [_ [H _]]].
  exact (proj1 (H _ [("error", PyStr "denied")] eq_refl eq_refl eq_refl eq_refl)).
Defined.

Lemma X10_witness :
  let net := always (mkResponse 200 (Some two_contracts)) in
  let st := fresh (PyStr "t") in
  exists payload data items,
    Current.get_contracts net st
    = (inr payload, snd (Current.get_contract_ids net st)) /\
    Legacy.get_contracts net st
    = (inr payload, snd (Current.get_contract_ids net st)) /\
    getitem payload "data" = inr data /\
    iter data = inr items /\
    Forall2 (fun entry id => getitem entry "id" = inr id) items [PyInt 1; PyInt 2] /\
    List.length [PyInt 1; PyInt 2] = List.length items /\
    (data = PyList items \/ [PyInt 1; PyInt 2] = []).
Proof.
  intros net st.
  exact (X10_every_returned_id_is_the_id_of_its_entry net st
           (snd (Current.get_contract_ids net st)) [PyInt 1; PyInt 2]
           (or_introl eq_refl)).
Defined.

Lemma X11_witness :
  let net := always (mkResponse 200 (Some (PyDict [("errors", PyList [])]))) in
  fst (Current.get_contract_ids net (fresh (PyStr "t"))) = inl (KeyError "data").
Proof.
  intro net.
  destruct (X11_id_extraction_fails_as_a_whole net (fresh (PyStr "t"))
              (snd (Current.get_contracts net (fresh (PyStr "t"))))
              (PyDict [("errors", PyList [])]) eq_refl) as [H _].
  destruct (H [("errors", PyList [])] eq_refl eq_refl) as [G _].
  rewrite G. reflexivity.
Defined.

Lemma X12_witness :
  let net := always (mkResponse 200 (Some two_devices)) in
  let st := fresh (PyStr "t") in
  exists payload data items,
    Current.get_devices net 5 st
    = (inr payload, snd (Current.get_start_end net parse_Ymd 5 9 st)) /\
    getitem payload "data" = inr data /\
    iter data = inr items /\
    Forall (other_device 9) items.
Proof.
  intros net st.
  exact (X12_none_none_means_that_the_device_is_not_listed net parse_Ymd st
           (snd (Current.get_start_end net parse_Ymd 5 9 st)) 5 9 eq_refl).
Defined.

Lemma X13_witness :
  let net := always (mkResponse 200 (Some broken_devices)) in
  fst (Current.get_start_end net parse_Ymd 5 2 (fresh (PyStr "t")))
  = inl (KeyError "id").
Proof.
  intro net.
  assert (O : other_device 2 device_1) by (exists (PyInt 1); split; reflexivity).
  destruct (X13_get_start_end_fails_on_what_it_cannot_read net parse_Ymd
              (fresh (PyStr "t"))
              (snd (Current.get_devices net 5 (fresh (PyStr "t"))))
              5 2 broken_devices [device_1] (PyDict [("name", PyStr "meter")])
              [device_2] eq_refl eq_refl (Forall_cons _ O (Forall_nil _)))
    as [H _].
  rewrite (H (KeyError "id") eq_refl). reflexivity.
Defined.

Lemma X14_witness :
  let net := always (mkResponse 200 (Some two_points)) in
  fst (Current.get_measurements_dataframe net false _ _ (inr list_pandas) 12 0
         (Current.a_str "2020-01-01") (Current.a_str "2020-01-31")
         (fresh (PyStr "t")))
  = inr [PyDict [("start", PyStr "2020-01-01"); ("value", PyInt 3)];
         PyDict [("start", PyStr "2020-01-02"); ("value", PyInt 5)]].
Proof.
  intro net.
  destruct (X14_the_dataframe_is_built_from_the_attributes_in_order net false _ _
              (inr list_pandas) 12 0
              (Current.a_str "2020-01-01") (Current.a_str "2020-01-31")
              (fresh (PyStr "t"))) as [_ [H _]].
  destruct (H list_pandas eq_refl) as [_ [G _]].
  rewrite (G two_points _ _
             [PyDict [("start", PyStr "2020-01-01"); ("value", PyInt 3)];
              PyDict [("start", PyStr "2020-01-02"); ("value", PyInt 5)]]
             eq_refl eq_refl).
  - reflexivity.
  - repeat constructor.
Defined.

Lemma X15_witness :
  exists s,
    Current._to_date false (Current.a_date (Datetime.mkDate 2020 1 15)) = inr s /\
    Current._to_date false (Current.a_str s) = inr s.
Proof.
  destruct (CoercionFacts.X15_a_formatted_date_reads_back_and_passes_unchanged
              false (midnight 2020 1 15) eq_refl ltac:(discriminate))
    as [s [H1 [_ [_ [_ H2]]]]].
  exists s. split; assumption.
Defined.

Lemma X16_witness :
  exists utc,
    "2020-01-14" = Datetime.strftime_Ymd false (Datetime.on utc) /\
    Datetime.toordinal (Datetime.on utc)
    <= Datetime.toordinal (Datetime.on (plus_two_hours 1)).
Proof.
  destruct (CoercionFacts.X16_the_UTC_day_is_at_most_one_day_away
              false (plus_two_hours 1) 7200000000 "2020-01-14" eq_refl eq_refl eq_refl)
    as [utc [H1 [_ [_ [H2 _]]]]].
  exists utc. split; [exact H1 | apply H2; discriminate].
Defined.

Lemma X17_witness :
  exists y1 y2 y3 y4 m d,
    "2020-1-5" = String y1 (String y2 (String y3 (String y4 ""))) ++ "-" ++ m ++ "-" ++ d.
Proof.
  destruct (CoercionFacts.X17_an_accepted_string_begins_with_a_four_digit_year
              false "2020-1-5" "2020-1-5" eq_refl)
    as [y1 [y2 [y3 [y4 [m [d [H _]]]]]]].
  exists y1, y2, y3, y4, m, d. exact H.
Defined.

Lemma X18_witness :
  let net := always (mkResponse 200 (Some two_devices)) in
  let st := fresh (PyStr "t") in
  let a := Some (midnight 2019 3 1) in
  let b := Some (midnight 2019 4 1) in
  (a = None /\ b = None) \/
  exists payload data pre device post id attributes c l start end_,
    Current.get_devices net 5 st
    = (inr payload, snd (Current.get_start_end net parse_Ymd 5 2 st)) /\
    getitem payload "data" = inr data /\
    iter data = inr (pre ++ device :: post)%list /\
    Forall (other_device 2) pre /\
    getitem device "id" = inr id /\ eq_int id 2 = true /\
    getitem device "attributes" = inr attributes /\
    getitem attributes "created_at" = inr c /\
    getitem attributes "last_image_date" = inr l /\
    parse_Ymd c = inr start /\ parse_Ymd l = inr end_ /\
    a = Some start /\ b = Some end_.
Proof.
  intros net st a b.
  exact (X18_the_timestamps_are_those_of_the_first_device_with_the_id
           net parse_Ymd st
           (snd (Current.get_start_end net parse_Ymd 5 2 st)) 5 2 a b eq_refl).
Defined.

Lemma X19_witness :
  let net := always (mkResponse 200 (Some one_contract)) in
  let st := fresh (PyStr "t") in
  fst (Legacy.get_ids net st) = inr [PyInt 7].
Proof.
  intros net st.
  destruct (X19_get_id_returns_the_id_of_the_only_contract net st
              (snd (Legacy.get_id net st)) (PyInt 7) eq_refl) as [H _].
  rewrite H. reflexivity.
Defined.
